(** * Focalboard client: batch validation and transport classification

    A shallow embedding of the Go package [boards]
    (boards_and_blocks.go, blocktype.go, client.go) and the properties of
    its batch validators, its block-type parser and its HTTP transport.

    Conventions.
    - A Go [string] is a [string] (a sequence of bytes); a [[]byte] is a
      [list byte]; an [int] is a [Z] (status codes never come near the
      64-bit bounds, and the code does no arithmetic on them).
    - A pointer that may be nil is an [option]; dereferencing nil panics.
    - A value of interface type [error] is an [option error]: [None] is
      Go's nil.
    - Methods with a pointer receiver run in the monad [M S], which threads
      a [World S]: the struct the receiver points to, and the log of the
      requests handed to the network. *)

From Stdlib Require Import ZArith Strings.Byte Strings.Ascii DecimalString.
From stdpp Require Import base option list strings gmap fin_maps.

Local Open Scope Z_scope.

(* ================================================================== *)
(** ** Go runtime: outcomes, errors, [errors.As] *)
(* ================================================================== *)

(** What a Go call does: it returns, or it panics (nil dereference,
    assignment to an entry of a nil map). *)
Inductive outcome (A : Type) : Type :=
| Returns (a : A)
| Panics.
Arguments Returns {A} a.
Arguments Panics {A}.

Definition outcome_bind {A B} (f : A → outcome B) (o : outcome A) : outcome B :=
  match o with
  | Returns a => f a
  | Panics => Panics
  end.

Global Instance outcome_ret : MRet outcome := @Returns.
Global Instance outcome_mbind : MBind outcome := @outcome_bind.

(** [*p] for a pointer [p]. *)
Definition deref {A} (p : option A) : outcome A :=
  match p with
  | Some a => Returns a
  | None => Panics
  end.

(** The dynamic types of the error values that this package creates or
    receives. *)
Inductive GoType : Type :=
| T_ptr_errorString                  (* *errors.errorString, from errors.New *)
| T_BlockDoesntBelongToAnyBoardErr   (* boards.BlockDoesntBelongToAnyBoardErr *)
| T_ErrInvalidBlockType              (* boards.ErrInvalidBlockType *)
| T_ptr_ErrInvalidBlockType          (* *boards.ErrInvalidBlockType *)
| T_RequestReaderError               (* boards.RequestReaderError *)
| T_ptr_wrapError                    (* *fmt.wrapError, from fmt.Errorf with %w *)
| T_foreign.                         (* an error of net/http, net/url or io *)

Global Instance GoType_eq_dec : EqDecision GoType.
Proof. solve_decision. Defined.

(** Non-nil values of interface type [error].

    [errorString s] is the result of [errors.New(s)].  Go compares such
    values by address; the five package variables below have five different
    messages, so comparing the message tells them apart just as well.
    [ErrInvalidBlockType] is the struct held by value, [ptr_ErrInvalidBlockType]
    a pointer to such a struct: both implement [error], since the method
    [Error] has a value receiver. *)
Inductive error : Type :=
| errorString (s : string)
| BlockDoesntBelongToAnyBoardErr (blockID : string)
| ErrInvalidBlockType (Type_ : string)
| ptr_ErrInvalidBlockType (Type_ : string)
| RequestReaderError (buf : list byte)
| wrapError (msg : string) (err : error)
| foreignError (msg : string).

Global Instance byte_EqDecision : EqDecision byte := Byte.byte_eq_dec.

Global Instance error_eq_dec : EqDecision error.
Proof. solve_decision. Defined.

Definition typeOf (e : error) : GoType :=
  match e with
  | errorString _ => T_ptr_errorString
  | BlockDoesntBelongToAnyBoardErr _ => T_BlockDoesntBelongToAnyBoardErr
  | ErrInvalidBlockType _ => T_ErrInvalidBlockType
  | ptr_ErrInvalidBlockType _ => T_ptr_ErrInvalidBlockType
  | RequestReaderError _ => T_RequestReaderError
  | wrapError _ _ => T_ptr_wrapError
  | foreignError _ => T_foreign
  end.

(** The [Error() string] method of each error type. *)
Definition error_Error (e : error) : string :=
  match e with
  | errorString s => s
  | BlockDoesntBelongToAnyBoardErr blockID =>
      "block " +:+ blockID +:+ " doesn't belong to any board"
  | ErrInvalidBlockType t | ptr_ErrInvalidBlockType t =>
      t +:+ " is an invalid block type."
  | RequestReaderError buf => "payload: " +:+ String.string_of_list_byte buf
  | wrapError msg _ => msg
  | foreignError msg => msg
  end.

(** [errors.New]. *)
Definition errors_New (text : string) : error := errorString text.

(** [%d] of [fmt]. *)
Definition fmt_d (n : Z) : string := NilZero.string_of_int (Z.to_int n).

(** [errors.Unwrap]: only [*fmt.wrapError] has an [Unwrap] method here. *)
Definition errors_Unwrap (e : error) : option error :=
  match e with
  | wrapError _ inner => Some inner
  | _ => None
  end.

(** [errors.As(err, &target)] for a target variable of the concrete type
    [T]: walk the [Unwrap] chain of [err] and stop at the first error whose
    dynamic type is assignable to [T], which for a concrete [T] means
    identical to [T].  None of the error types above has an [As] method.
    The result is what [target] is set to; [None] stands for [false]. *)
Fixpoint errors_As_chain (e : error) (T : GoType) : option error :=
  if decide (typeOf e = T) then Some e
  else match e with
       | wrapError _ inner => errors_As_chain inner T
       | _ => None
       end.

Definition errors_As (err : option error) (T : GoType) : bool :=
  match err with
  | None => false
  | Some e => bool_decide (is_Some (errors_As_chain e T))
  end.

(* ================================================================== *)
(** ** net/http and io values *)
(* ================================================================== *)

(** A Go map header, [http.Header] = [map[string][]string]; [None] is the
    nil map. *)
Abbreviation http_Header := (option (gmap string (list string))).

(** An [io.Reader] or [io.ReadCloser] over bytes that arrive from
    elsewhere: [pending] is what reading to the end delivers, [fault] the
    error that ends the reading ([None]: a clean EOF), [closed] whether
    [Close] was called. *)
Module Stream.
Record t : Type := mk { pending : list byte; fault : option error; closed : bool }.
End Stream.

(** [strings.NewReader(s)]. *)
Definition strings_NewReader (s : string) : Stream.t :=
  Stream.mk (String.list_byte_of_string s) None false.

(** [*http.Request], as far as the client touches it. *)
Module http_Request.
Record t : Type := mk {
  Method : string;
  URL : string;
  Header : http_Header;
  Body : Stream.t
}.
End http_Request.

(** [*http.Response], as far as the client touches it. *)
Module http_Response.
Record t : Type := mk {
  StatusCode : Z;
  Header : http_Header;
  Body : option Stream.t
}.
End http_Response.

(* ================================================================== *)
(** ** The parts of the Go standard library the package calls *)
(* ================================================================== *)

(** Library functions whose code is not part of this package.  The
    theorems hold for every implementation of them.
    - [strings_ToLower]: [strings.ToLower].
    - [CanonicalMIMEHeaderKey]: [textproto.CanonicalMIMEHeaderKey], which
      [http.Header.Set] and [Add] apply to the key.
    - [NewRequest_check]: the validation [http.NewRequest] does on the
      method and the URL; [Some err] when it refuses them.
    - [network]: what a zero-value [http.Client] answers when its [Do] is
      given a request: the response pointer and the error.
    - [range_order]: the order in which a [for k, v := range m] loop visits
      a [map[string]string]; Go leaves it unspecified, every entry is
      visited once. *)
Class GoLib : Type := {
  strings_ToLower : string → string;
  CanonicalMIMEHeaderKey : string → string;
  NewRequest_check : string → string → option error;
  network : http_Request.t → option http_Response.t * option error;
  range_order : gmap string string → list (string * string);
  range_order_perm : ∀ m, range_order m ≡ₚ map_to_list m
}.

(** *** An implementation for ASCII input, to run the definitions *)

Definition ascii_between (lo hi c : ascii) : bool :=
  (nat_of_ascii lo <=? nat_of_ascii c)%nat && (nat_of_ascii c <=? nat_of_ascii hi)%nat.

Definition ascii_to_lower (c : ascii) : ascii :=
  if ascii_between "A" "Z" c then ascii_of_nat (nat_of_ascii c + 32) else c.

Definition ascii_to_upper (c : ascii) : ascii :=
  if ascii_between "a" "z" c then ascii_of_nat (nat_of_ascii c - 32) else c.

Fixpoint string_map (f : ascii → ascii) (s : string) : string :=
  match s with
  | EmptyString => EmptyString
  | String c s' => String (f c) (string_map f s')
  end.

(** [strings.ToLower] on a string of ASCII bytes. *)
Definition ToLower_ascii (s : string) : string := string_map ascii_to_lower s.

(** [validHeaderFieldByte] of net/textproto: the token characters. *)
Definition validHeaderFieldByte (c : ascii) : bool :=
  ascii_between "a" "z" c || ascii_between "A" "Z" c || ascii_between "0" "9" c
  || bool_decide (c ∈ ["!"; "#"; "$"; "%"; "&"; "'"; "*"; "+"; "-"; "."; "^"; "_"; "`"; "|"; "~"]%char).

Fixpoint string_forallb (p : ascii → bool) (s : string) : bool :=
  match s with
  | EmptyString => true
  | String c s' => p c && string_forallb p s'
  end.

(** The casing loop of [canonicalMIMEHeaderKey]: upper case at the start
    and after each dash, lower case elsewhere. *)
Fixpoint canonical_case (upper : bool) (s : string) : string :=
  match s with
  | EmptyString => EmptyString
  | String c s' =>
      let c' := if upper then ascii_to_upper c else ascii_to_lower c in
      String c' (canonical_case (bool_decide (c' = "-"%char)) s')
  end.

(** [textproto.CanonicalMIMEHeaderKey]: a key with a byte that is not a
    token character is returned as it is. *)
Definition CanonicalMIMEHeaderKey_ascii (s : string) : string :=
  if string_forallb validHeaderFieldByte s then canonical_case true s else s.

(** The library as the examples run it: ASCII lower-casing, the MIME key
    canonicalisation, a [http.NewRequest] that accepts the method and URL
    (the examples pass well-formed ones), a network on which nothing
    listens, and maps ranged over in the order of [map_to_list]. *)
Definition example_lib : GoLib := {|
  strings_ToLower := ToLower_ascii;
  CanonicalMIMEHeaderKey := CanonicalMIMEHeaderKey_ascii;
  NewRequest_check := λ _ _, None;
  network := λ _, (None, Some (foreignError "dial tcp 127.0.0.1:8065: connect: connection refused"%string));
  range_order := map_to_list;
  range_order_perm := λ m, reflexivity (map_to_list m)
|}.

(* ================================================================== *)
(** ** blocktype.go *)
(* ================================================================== *)

(** [type BlockType string]. *)
Definition BlockType : Type := string.

Definition TypeUnknown : BlockType := "unknown".
Definition TypeBoard : BlockType := "board".
Definition TypeCard : BlockType := "card".
Definition TypeView : BlockType := "view".
Definition TypeText : BlockType := "text".
Definition TypeCheckbox : BlockType := "checkbox".
Definition TypeComment : BlockType := "comment".
Definition TypeImage : BlockType := "image".
Definition TypeAttachment : BlockType := "attachment".
Definition TypeDivider : BlockType := "divider".

Definition BlockType_String (bt : BlockType) : string := bt.

(** The case labels of the [switch] in [BlockTypeFromString], in order. *)
Definition block_type_names : list string :=
  ["board"; "card"; "view"; "text"; "checkbox"; "comment"; "image";
   "attachment"; "divider"].

Section blocktype.
Context `{GoLib}.

Definition BlockTypeFromString (s : string) : BlockType * option error :=
    let l := strings_ToLower s in
    if String.eqb l "board" then (TypeBoard, None)
    else if String.eqb l "card" then (TypeCard, None)
    else if String.eqb l "view" then (TypeView, None)
    else if String.eqb l "text" then (TypeText, None)
    else if String.eqb l "checkbox" then (TypeCheckbox, None)
    else if String.eqb l "comment" then (TypeComment, None)
    else if String.eqb l "image" then (TypeImage, None)
    else if String.eqb l "attachment" then (TypeAttachment, None)
    else if String.eqb l "divider" then (TypeDivider, None)
    else (TypeUnknown, Some (ErrInvalidBlockType s)).
End blocktype.

(** [var eibt *ErrInvalidBlockType; return errors.As(err, &eibt)]. *)
Definition IsErrInvalidBlockType (err : option error) : bool :=
  errors_As err T_ptr_ErrInvalidBlockType.

(* ================================================================== *)
(** ** Methods with a pointer receiver: the monad [M S] *)
(* ================================================================== *)

(** The memory a method can reach through its receiver, and the network:
    [this] is the struct the receiver points to, [wire] the requests handed
    to the HTTP client so far, oldest first. *)
Record World (S : Type) : Type := mkWorld { this : S; wire : list http_Request.t }.
Arguments mkWorld {S} this wire.
Arguments this {S} w.
Arguments wire {S} w.

Definition M (S A : Type) : Type := World S → outcome A * World S.

Global Instance M_ret {S} : MRet (M S) := λ A a w, (Returns a, w).
Global Instance M_bind {S} : MBind (M S) := λ A B f m w,
  match m w with
  | (Returns a, w') => f a w'
  | (Panics, w') => (Panics, w')
  end.

(** Read the receiver's struct. *)
Definition receiver {S} : M S S := λ w, (Returns (this w), w).

(** Run a step that touches neither the receiver nor the network. *)
Definition lift {S A} (o : outcome A) : M S A := λ w, (o, w).

(** Hand a request to the network. *)
Definition send {S} (rq : http_Request.t) : M S unit :=
  λ w, (Returns tt, mkWorld (this w) (wire w ++ [rq])).

(* ================================================================== *)
(** ** boards_and_blocks.go *)
(* ================================================================== *)

Definition ErrNoBoardsInBoardsAndBlocks : error :=
  errors_New "at least one board is required".
Definition ErrNoBlocksInBoardsAndBlocks : error :=
  errors_New "at least one block is required".
Definition ErrNoTeamInBoardsAndBlocks : error :=
  errors_New "team ID cannot be empty".
Definition ErrBoardIDsAndPatchesMissmatchInBoardsAndBlocks : error :=
  errors_New "board ids and patches need to match".
Definition ErrBlockIDsAndPatchesMissmatchInBoardsAndBlocks : error :=
  errors_New "block ids and patches need to match".

(** Modelled from the spec: the struct [Board], declared in a file of the
    package that is not among the sources.  "An identified container
    entity; attributes include an opaque string ID and a team
    association."  The validator reads [ID] only. *)
Module Board.
Record t : Type := mk { ID : string; TeamID : string }.
End Board.

(** Modelled from the spec: the struct [Block], declared in a file of the
    package that is not among the sources.  "An identified content unit;
    attributes include an opaque string ID, a BoardID (foreign key to a
    Board), and a typed BlockType."  The validator reads [ID] and
    [BoardID]. *)
Module Block.
Record t : Type := mk { ID : string; BoardID : string; Type_ : BlockType }.
End Block.

(** [Boards []*Board] and [Blocks []*Block]: slices of pointers.  A nil
    slice and an empty slice are both [[]]: the code only takes [len] and
    ranges. *)
Module BoardsAndBlocks.
Record t : Type := mk { Boards : list (option Board.t); Blocks : list (option Block.t) }.
End BoardsAndBlocks.

(** The first loop of [IsValid]:
    [for _, board := range bab.Boards { boardsMap[board.ID] = true }]. *)
Fixpoint register_boards (boards : list (option Board.t)) (boardsMap : gmap string bool)
  : outcome (gmap string bool) :=
  match boards with
  | [] => Returns boardsMap
  | p :: rest =>
      outcome_bind (λ board, register_boards rest (<[Board.ID board := true]> boardsMap))
                   (deref p)
  end.

(** The second loop of [IsValid]: the first block whose board is not in
    the map ends the call with an error; falling out of the loop lets the
    function reach its [return nil]. *)
Fixpoint check_blocks (boardsMap : gmap string bool) (blocks : list (option Block.t))
  : outcome (option error) :=
  match blocks with
  | [] => Returns None
  | p :: rest =>
      outcome_bind
        (λ block,
           match boardsMap !! Block.BoardID block with
           | None => Returns (Some (BlockDoesntBelongToAnyBoardErr (Block.ID block)))
           | Some _ => check_blocks boardsMap rest
           end)
        (deref p)
  end.

(** [func (bab *BoardsAndBlocks) IsValid() error]. *)
Definition BoardsAndBlocks_IsValid : M BoardsAndBlocks.t (option error) :=
  bab ← receiver;
  if bool_decide (length (BoardsAndBlocks.Boards bab) = 0%nat)
  then mret (Some ErrNoBoardsInBoardsAndBlocks)
  else if bool_decide (length (BoardsAndBlocks.Blocks bab) = 0%nat)
  then mret (Some ErrNoBlocksInBoardsAndBlocks)
  else
    boardsMap ← lift (register_boards (BoardsAndBlocks.Boards bab) ∅);
    lift (check_blocks boardsMap (BoardsAndBlocks.Blocks bab)).

Module DeleteBoardsAndBlocks.
Record t : Type := mk { Boards : list string; Blocks : list string }.
End DeleteBoardsAndBlocks.

(** [BoardPatch] and [BlockPatch] are declared in files of the package that
    are not among the sources; the validator only counts the pointers to
    them, so they stay type parameters. *)
Module PatchBoardsAndBlocks.
Record t (BoardPatch BlockPatch : Type) : Type := mk {
  BoardIDs : list string;
  BoardPatches : list (option BoardPatch);
  BlockIDs : list string;
  BlockPatches : list (option BlockPatch)
}.
Arguments mk {_ _} _ _ _ _.
Arguments BoardIDs {_ _} _.
Arguments BoardPatches {_ _} _.
Arguments BlockIDs {_ _} _.
Arguments BlockPatches {_ _} _.
End PatchBoardsAndBlocks.

(** [func (dbab *PatchBoardsAndBlocks) IsValid() error]. *)
Definition PatchBoardsAndBlocks_IsValid {BoardPatch BlockPatch : Type}
  : M (PatchBoardsAndBlocks.t BoardPatch BlockPatch) (option error) :=
  dbab ← receiver;
  if bool_decide (length (PatchBoardsAndBlocks.BoardIDs dbab) = 0%nat)
  then mret (Some ErrNoBoardsInBoardsAndBlocks)
  else if bool_decide (length (PatchBoardsAndBlocks.BoardIDs dbab)
                       ≠ length (PatchBoardsAndBlocks.BoardPatches dbab))
  then mret (Some ErrBoardIDsAndPatchesMissmatchInBoardsAndBlocks)
  else if bool_decide (length (PatchBoardsAndBlocks.BlockIDs dbab)
                       ≠ length (PatchBoardsAndBlocks.BlockPatches dbab))
  then mret (Some ErrBlockIDsAndPatchesMissmatchInBoardsAndBlocks)
  else mret None.

(* ================================================================== *)
(** ** client.go *)
(* ================================================================== *)

Definition APIURLSuffix : string := "/api/v2".

Definition StatusNotModified : Z := 304.
Definition StatusMultipleChoices : Z := 300.

(** [RequestReaderError{buf}] is the constructor [RequestReaderError] of
    [error]; its [Error] method is the matching case of [error_Error]. *)

Module Response.
Record t : Type := mk {
  StatusCode : Z;
  Error : option error;
  Header : http_Header
}.
End Response.

(** [func BuildResponse(r *http.Response) *Response]; the [Error] field
    keeps its zero value. *)
Definition BuildResponse (r : option http_Response.t) : outcome Response.t :=
  outcome_bind
    (λ r, Returns (Response.mk (http_Response.StatusCode r) None (http_Response.Header r)))
    (deref r).

(** [func BuildErrorResponse(r *http.Response, err error) *Response];
    [make(http.Header)] is the empty, non-nil map. *)
Definition BuildErrorResponse (r : option http_Response.t) (err : option error) : Response.t :=
  let statusCode := 0 in
  let header : http_Header := Some ∅ in
  let '(statusCode, header) :=
    match r with
    | Some r => (http_Response.StatusCode r, http_Response.Header r)
    | None => (statusCode, header)
    end in
  Response.mk statusCode err header.

(** [io.ReadAll(r)]: the bytes read, the error that stopped the reading (nil
    at EOF), and the reader afterwards.  A nil reader panics. *)
Definition io_ReadAll (r : option Stream.t) : outcome (list byte * option error * Stream.t) :=
  outcome_bind
    (λ s, Returns (Stream.pending s, Stream.fault s,
                   Stream.mk [] (Stream.fault s) (Stream.closed s)))
    (deref r).

(** [io.Copy(io.Discard, s)] followed by [s.Close()], results dropped. *)
Definition drain_and_close (s : Stream.t) : Stream.t :=
  Stream.mk [] (Stream.fault s) true.

(** [func closeBody(r *http.Response)]: the response [r] points to,
    afterwards. *)
Definition closeBody (r : option http_Response.t) : outcome http_Response.t :=
  outcome_bind
    (λ r, Returns
            match http_Response.Body r with
            | Some body =>
                http_Response.mk (http_Response.StatusCode r) (http_Response.Header r)
                                 (Some (drain_and_close body))
            | None => r
            end)
    (deref r).

Module Client.
Record t : Type := mk {
  URL : string;
  APIURL : string;
  HTTPClient : option (http_Request.t → option http_Response.t * option error);
  HTTPHeader : option (gmap string string);
  Token : string
}.
End Client.

(** [type requestOption func(r *http.Request)]: what the option makes of
    the request [r] points to. *)
Definition requestOption : Type := http_Request.t → outcome http_Request.t.

Definition set_Header (rq : http_Request.t) (h : http_Header) : http_Request.t :=
  http_Request.mk (http_Request.Method rq) (http_Request.URL rq) h (http_Request.Body rq).

(** [strings.TrimRight(s, cutset)] for a cutset of ASCII bytes. *)
Fixpoint strings_TrimRight (s cutset : string) : string :=
  match s with
  | EmptyString => EmptyString
  | String c s' =>
      match strings_TrimRight s' cutset with
      | EmptyString =>
          if bool_decide (c ∈ String.list_ascii_of_string cutset)
          then EmptyString else String c EmptyString
      | t => String c t
      end
  end.

(** [for _, opt := range opts { opt(rq) }]. *)
Fixpoint apply_opts (opts : list requestOption) (rq : http_Request.t) : outcome http_Request.t :=
  match opts with
  | [] => Returns rq
  | opt :: rest => outcome_bind (apply_opts rest) (opt rq)
  end.

Section client.
Context `{GoLib}.

(** [h.Set(key, value)]. *)
Definition Header_Set (key value : string) (h : http_Header) : outcome http_Header :=
  match h with
  | None => Panics
  | Some m => Returns (Some (<[CanonicalMIMEHeaderKey key := [value]]> m))
  end.

(** [h.Add(key, value)]. *)
Definition Header_Add (key value : string) (h : http_Header) : outcome http_Header :=
  match h with
  | None => Panics
  | Some m =>
      let key := CanonicalMIMEHeaderKey key in
      Returns (Some (<[key := default [] (m !! key) ++ [value]]> m))
  end.

(** [http.NewRequest(method, url, body)]: an empty method means GET; the
    header map is made fresh.  [inr err]: the method or the URL is refused
    and the request is nil. *)
Definition http_NewRequest (method url : string) (body : Stream.t)
  : http_Request.t + error :=
  let method := if String.eqb method "" then "GET" else method in
  match NewRequest_check method url with
  | Some err => inr err
  | None => inl (http_Request.mk method url (Some ∅) body)
  end.

(** [func NewClient(url, sessionToken string) *Client]. *)
Definition NewClient (url sessionToken : string) : Client.t :=
  let url := strings_TrimRight url "/" in
  let headers : gmap string string := {[ "X-Requested-With" := "XMLHttpRequest" ]} in
  Client.mk url (url +:+ APIURLSuffix) (Some network) (Some headers) sessionToken.

(** [for k, v := range c.HTTPHeader { rq.Header.Set(k, v) }], over the
    entries in the order the loop visits them. *)
Fixpoint set_headers (entries : list (string * string)) (h : http_Header) : outcome http_Header :=
  match entries with
  | [] => Returns h
  | (k, v) :: rest => outcome_bind (set_headers rest) (Header_Set k v h)
  end.

(** [func (c *Client) doAPIRequestReader(method, url string, data io.Reader,
    _ string, opts ...requestOption)], returning a response pointer and an
    error.  The model has it in three parts. *)

(** Lines 109 to 126: the request is made, the caller's options run on it,
    then every header of the client is set, then the bearer token.
    [inr err]: [http.NewRequest] failed and the function returns
    [nil, err]. *)
Definition doAPIRequestReader_request (c : Client.t) (method url : string) (data : Stream.t)
    (opts : list requestOption) : outcome (http_Request.t + error) :=
  match http_NewRequest method url data with
  | inr err => Returns (inr err)
  | inl rq =>
      rq ← apply_opts opts rq;
      header ←
        match Client.HTTPHeader c with
        | Some m =>
            if bool_decide (0 < size m)%nat
            then set_headers (range_order m) (http_Request.Header rq)
            else Returns (http_Request.Header rq)
        | None => Returns (http_Request.Header rq)
        end;
      header ←
        (if bool_decide (Client.Token c ≠ "")
         then Header_Set "Authorization" ("Bearer " +:+ Client.Token c) header
         else Returns header);
      Returns (inl (set_Header rq header))
  end.

(** Lines 129 to 146: what is made of the answer [rp, err] of
    [c.HTTPClient.Do(rq)].  [rp] is a pointer: what the caller finds behind
    it is the response after [io.ReadAll] and the deferred [closeBody] have
    run, and that is what the model returns. *)
Definition doAPIRequestReader_result (rp : option http_Response.t) (err : option error)
  : outcome (option http_Response.t * option error) :=
  match err, rp with
  | None, Some resp =>
      if bool_decide (http_Response.StatusCode resp = StatusNotModified)
      then Returns (rp, None)
      else if bool_decide (StatusMultipleChoices ≤ http_Response.StatusCode resp)
      then
        '(b, err, body) ← io_ReadAll (http_Response.Body resp);
        resp ← closeBody (Some (http_Response.mk (http_Response.StatusCode resp)
                                                 (http_Response.Header resp) (Some body)));
        match err with
        | Some e =>
            Returns (Some resp,
                     Some (wrapError
                             ("error when parsing response with code "
                              +:+ fmt_d (http_Response.StatusCode resp)
                              +:+ ": " +:+ error_Error e) e))
        | None => Returns (Some resp, Some (RequestReaderError b))
        end
      else Returns (rp, None)
  | _, _ => Returns (None, err)
  end.

(** The whole method: build the request, hand it to [c.HTTPClient.Do],
    classify the answer. *)
Definition doAPIRequestReader (method url : string) (data : Stream.t) (etag : string)
    (opts : list requestOption) : M Client.t (option http_Response.t * option error) :=
  c ← receiver;
  rq ← lift (doAPIRequestReader_request c method url data opts);
  match rq with
  | inr err => mret (None, Some err)
  | inl rq =>
      Do ← lift (deref (Client.HTTPClient c));
      send rq;;
      let '(rp, err) := Do rq in
      lift (doAPIRequestReader_result rp err)
  end.

(** [func (c *Client) DoAPIRequest(method, url, data, etag string)]. *)
Definition DoAPIRequest (method url data etag : string)
  : M Client.t (option http_Response.t * option error) :=
  doAPIRequestReader method url (strings_NewReader data) etag [].

(** [func (c *Client) DoAPIGet(url, etag string)]. *)
Definition DoAPIGet (url etag : string) : M Client.t (option http_Response.t * option error) :=
  c ← receiver;
  DoAPIRequest "GET" (Client.APIURL c +:+ url) "" etag.

End client.

(* ================================================================== *)
(** ** client.go: routes and API calls *)
(* ================================================================== *)

(** The route methods have a receiver that they do not read; they are
    functions of their string arguments.  [fmt.Sprintf] with the verb %s
    on strings is concatenation. *)
Definition GetTeamsRoute : string := "/teams".
Definition GetTeamRoute (teamID : string) : string := GetTeamsRoute +:+ "/" +:+ teamID.
Definition GetBoardsRoute : string := "/boards".
Definition GetBoardRoute (boardID : string) : string := GetBoardsRoute +:+ "/" +:+ boardID.
Definition GetBlocksRoute (boardID : string) : string := GetBoardRoute boardID +:+ "/blocks".
Definition GetBlockRoute (boardID blockID : string) : string :=
  GetBlocksRoute boardID +:+ "/" +:+ blockID.
Definition GetBoardMetadataRoute (boardID : string) : string :=
  GetBoardsRoute +:+ "/" +:+ boardID +:+ "/metadata".
Definition GetJoinBoardRoute (boardID : string) : string :=
  GetBoardsRoute +:+ "/" +:+ boardID +:+ "/join".
Definition GetLeaveBoardRoute (boardID : string) : string :=
  GetBoardsRoute +:+ "/" +:+ boardID +:+ "/join".
Definition GetAllBlocksRoute (boardID : string) : string :=
  GetBoardRoute boardID +:+ "/blocks?all=true".
Definition GetBoardsAndBlocksRoute : string := "/boards-and-blocks".
Definition GetCardsRoute : string := "/cards".
Definition GetCardRoute (cardID : string) : string := GetCardsRoute +:+ "/" +:+ cardID.
Definition GetLoginRoute : string := "/login".

(** [func toJSON(v interface{}) string]: the error of [json.Marshal] is
    dropped, and with it the bytes are nil.  [marshal] is [json.Marshal] at
    the type of [v]. *)
Definition toJSON {A} (marshal : A → list byte * option error) (v : A) : string :=
  let '(b, _) := marshal v in String.string_of_list_byte b.

(** [c.Token = token]. *)
Definition assign_Token (token : string) : M Client.t unit :=
  λ w, (Returns tt,
        mkWorld (Client.mk (Client.URL (this w)) (Client.APIURL (this w))
                           (Client.HTTPClient (this w)) (Client.HTTPHeader (this w)) token)
                (wire w)).

(** Declarations of the package that are not among the sources, and
    [encoding/json] at their types.
    - [BoardMember], [LoginRequest], [LoginResponse]: struct types; of
      [LoginResponse] the client reads the field [Token].
    - [json_Marshal_LoginRequest]: [json.Marshal] of a [**LoginRequest]
      whose outer pointer is not nil.
    - [LoginResponseFromJSON], [BoardMemberFromJSON]: the decoders, given
      the body they read from; they may panic (a nil reader). *)
Class Codec : Type := {
  BoardMember : Type;
  LoginRequest : Type;
  LoginResponse : Type;
  LoginResponse_Token : LoginResponse → string;
  json_Marshal_LoginRequest : option LoginRequest → list byte * option error;
  LoginResponseFromJSON : option Stream.t → outcome (option LoginResponse * option error);
  BoardMemberFromJSON : option Stream.t → outcome (option BoardMember)
}.

Section api.
Context `{GoLib} `{Codec}.

(** [func (c *Client) DoAPIPost(url, data string)]. *)
Definition DoAPIPost (url data : string) : M Client.t (option http_Response.t * option error) :=
  c ← receiver;
  DoAPIRequest "POST" (Client.APIURL c +:+ url) data "".

(** [func (c *Client) DoAPIPatch(url, data string)]. *)
Definition DoAPIPatch (url data : string) : M Client.t (option http_Response.t * option error) :=
  c ← receiver;
  DoAPIRequest "PATCH" (Client.APIURL c +:+ url) data "".

(** [func (c *Client) DoAPIPut(url, data string)]. *)
Definition DoAPIPut (url data : string) : M Client.t (option http_Response.t * option error) :=
  c ← receiver;
  DoAPIRequest "PUT" (Client.APIURL c +:+ url) data "".

(** [func (c *Client) DoAPIDelete(url string, data string)]. *)
Definition DoAPIDelete (url data : string) : M Client.t (option http_Response.t * option error) :=
  c ← receiver;
  DoAPIRequest "DELETE" (Client.APIURL c +:+ url) data "".

(** [func (c *Client) DeleteBoard(boardID string) (bool, *Response)].  The
    deferred [closeBody(r)] runs once the results are computed; the
    response it leaves is not part of the results. *)
Definition DeleteBoard (boardID : string) : M Client.t (bool * Response.t) :=
  '(r, err) ← DoAPIDelete (GetBoardRoute boardID) "";
  match err with
  | Some _ => mret (false, BuildErrorResponse r err)
  | None =>
      resp ← lift (BuildResponse r);
      lift (closeBody r);;
      mret (true, resp)
  end.

(** [func (c *Client) ExportBoardArchive(boardID string) ([]byte, *Response)];
    a nil byte slice is [None]. *)
Definition ExportBoardArchive (boardID : string) : M Client.t (option (list byte) * Response.t) :=
  '(r, err) ← DoAPIGet (GetBoardRoute boardID +:+ "/archive/export") "";
  match err with
  | Some _ => mret (None, BuildErrorResponse r err)
  | None =>
      rp ← lift (deref r);
      '(buf, err, body) ← lift (io_ReadAll (http_Response.Body rp));
      let r := Some (http_Response.mk (http_Response.StatusCode rp)
                                      (http_Response.Header rp) (Some body)) in
      match err with
      | Some _ =>
          lift (closeBody r);;
          mret (None, BuildErrorResponse r err)
      | None =>
          resp ← lift (BuildResponse r);
          lift (closeBody r);;
          mret (Some buf, resp)
      end
  end.

(** [func (c *Client) JoinBoard(boardID string)], returning a [*BoardMember]
    and a [*Response]. *)
Definition JoinBoard (boardID : string) : M Client.t (option BoardMember * Response.t) :=
  '(r, err) ← DoAPIPost (GetJoinBoardRoute boardID) "";
  match err with
  | Some _ => mret (None, BuildErrorResponse r err)
  | None =>
      rp ← lift (deref r);
      member ← lift (BoardMemberFromJSON (http_Response.Body rp));
      resp ← lift (BuildResponse r);
      lift (closeBody r);;
      mret (member, resp)
  end.

(** [func (c *Client) LeaveBoard(boardID string)], returning a [*BoardMember]
    and a [*Response]. *)
Definition LeaveBoard (boardID : string) : M Client.t (option BoardMember * Response.t) :=
  '(r, err) ← DoAPIPost (GetLeaveBoardRoute boardID) "";
  match err with
  | Some _ => mret (None, BuildErrorResponse r err)
  | None =>
      rp ← lift (deref r);
      member ← lift (BoardMemberFromJSON (http_Response.Body rp));
      resp ← lift (BuildResponse r);
      lift (closeBody r);;
      mret (member, resp)
  end.

(** [func (c *Client) Login(request *LoginRequest)], returning a
    [*LoginResponse] and a [*Response]. *)
Definition Login (request : option LoginRequest)
  : M Client.t (option LoginResponse * Response.t) :=
  '(r, err) ← DoAPIPost GetLoginRoute (toJSON json_Marshal_LoginRequest request);
  match err with
  | Some _ => mret (None, BuildErrorResponse r err)
  | None =>
      rp ← lift (deref r);
      '(data, err) ← lift (LoginResponseFromJSON (http_Response.Body rp));
      match err with
      | Some _ =>
          lift (closeBody r);;
          mret (None, BuildErrorResponse r err)
      | None =>
          login ← lift (deref data);
          (if bool_decide (LoginResponse_Token login ≠ "")
           then assign_Token (LoginResponse_Token login)
           else mret tt);;
          resp ← lift (BuildResponse r);
          lift (closeBody r);;
          mret (data, resp)
      end
  end.

End api.

(* ================================================================== *)
(** ** Vocabulary of the statements *)
(* ================================================================== *)

(** Call a method on a receiver in a world where [sent] went over the
    network before: what the call does, and the world it leaves. *)
Definition call {S A} (m : M S A) (self : S) (sent : list http_Request.t) : outcome A * World S :=
  m (mkWorld self sent).

(** The create batch whose slices point to the given boards and blocks. *)
Definition batch_of (boards : list Board.t) (blocks : list Block.t) : BoardsAndBlocks.t :=
  BoardsAndBlocks.mk (Some <$> boards) (Some <$> blocks).

(** A block is an orphan among [boards] when its [BoardID] is the [ID] of
    none of them. *)
Definition orphan (boards : list Board.t) (b : Block.t) : Prop :=
  Block.BoardID b ∉ Board.ID <$> boards.

Global Instance orphan_dec boards b : Decision (orphan boards b).
Proof. unfold orphan. apply _. Defined.

(** The first orphan of [blocks] in list order, as the specification words
    the orphan check. *)
Fixpoint first_orphan (boards : list Board.t) (blocks : list Block.t) : option Block.t :=
  match blocks with
  | [] => None
  | b :: rest => if decide (orphan boards b) then Some b else first_orphan boards rest
  end.

(** What the specification says the create validator answers. *)
Definition ValidateCreateBatch (boards : list Board.t) (blocks : list Block.t) : option error :=
  match boards, blocks with
  | [], _ => Some ErrNoBoardsInBoardsAndBlocks
  | _, [] => Some ErrNoBlocksInBoardsAndBlocks
  | _, _ => (λ b, BlockDoesntBelongToAnyBoardErr (Block.ID b)) <$> first_orphan boards blocks
  end.

(** [h[key]] with the comma-ok idiom, no canonicalisation of the key:
    the values a header map holds under [key]; reading a nil map finds
    nothing. *)
Definition Header_values (key : string) (h : http_Header) : option (list string) :=
  match h with
  | Some m => m !! key
  | None => None
  end.

(** The header map after [Set(k, v)] was called for each entry in turn. *)
Definition set_all `{GoLib} (entries : list (string * string)) (m : gmap string (list string))
  : gmap string (list string) :=
  foldl (λ acc kv, <[CanonicalMIMEHeaderKey kv.1 := [kv.2]]> acc) m entries.

(* ================================================================== *)
(** ** Concrete inputs *)
(* ================================================================== *)

(** A board-only patch batch: two boards, two patches, no blocks. *)
Definition board_only_patch : PatchBoardsAndBlocks.t unit unit :=
  PatchBoardsAndBlocks.mk ["b1"; "b2"] [Some (); Some ()] [] [].

(** A backend that answers every request with the given status code, no
    headers, and the given body. *)
Definition simulated_backend (code : Z) (body : Stream.t)
  : http_Request.t → option http_Response.t * option error :=
  λ _, (Some (http_Response.mk code (Some ∅) (Some body)), None).

(** The client [c] after [c.HTTPClient] is pointed at another HTTP client. *)
Definition with_HTTPClient (c : Client.t)
    (Do : http_Request.t → option http_Response.t * option error) : Client.t :=
  Client.mk (Client.URL c) (Client.APIURL c) (Some Do) (Client.HTTPHeader c) (Client.Token c).

(** A caller's option in the manner of [TeamUploadFile]:
    [func(r *http.Request) { r.Header.Add(key, value) }]. *)
Definition add_header `{GoLib} (key value : string) : requestOption :=
  λ r, h ← Header_Add key value (http_Request.Header r); Returns (set_Header r h).

(** A body whose reading breaks off after two bytes. *)
Definition broken_body : Stream.t :=
  Stream.mk (String.list_byte_of_string "bo") (Some (foreignError "unexpected EOF")) false.

(** A client for a server on the local machine, logged in with a token. *)
Definition local_client : Client.t :=
  NewClient (H := example_lib) "http://localhost:8065/" "s3cr3t".

Definition boards_url : string := "http://localhost:8065/api/v2/boards".

(** The request [local_client] builds for a GET of [boards_url]. *)
Definition boards_request : http_Request.t :=
  http_Request.mk "GET" boards_url
    (Some {[ "X-Requested-With" := ["XMLHttpRequest"];
             "Authorization" := ["Bearer s3cr3t"] ]})
    (strings_NewReader "").

(** Options of a caller who wants headers of its own on the request. *)
Definition caller_options : list requestOption :=
  [add_header (H := example_lib) "Authorization" "Basic Y2FsbGVyOnB3";
   add_header (H := example_lib) "X-Requested-With" "fetch"].

Definition not_modified_response : http_Response.t :=
  http_Response.mk 304 (Some ∅) (Some (strings_NewReader "")).

Definition boom_response : http_Response.t :=
  http_Response.mk 500 (Some ∅) (Some (strings_NewReader "boom")).

Definition connection_refused : error :=
  foreignError "dial tcp 127.0.0.1:8065: connect: connection refused".

(* ================================================================== *)
(** ** More vocabulary, and more concrete inputs *)
(* ================================================================== *)

(** The client builds the request [rq] for a call without options, and
    its HTTP client answers it with the response [rp] and the error
    [err]. *)
Definition answers `{GoLib} (c : Client.t) (method url data : string)
    (rq : http_Request.t) (rp : option http_Response.t) (err : option error) : Prop :=
  doAPIRequestReader_request c method url (strings_NewReader data) [] = Returns (inl rq)
  ∧ ∃ Do, Client.HTTPClient c = Some Do ∧ Do rq = (rp, err).

(** The header map of a request that no option touched: the headers of
    the client, then the bearer token. *)
Definition client_headers `{GoLib} (c : Client.t) : gmap string (list string) :=
  let m :=
    match Client.HTTPHeader c with
    | Some hm => set_all (range_order hm) ∅
    | None => ∅
    end in
  if bool_decide (Client.Token c ≠ "")
  then <[CanonicalMIMEHeaderKey "Authorization" := ["Bearer " +:+ Client.Token c]]> m
  else m.

(** The client [c] after [c.Token = token]. *)
Definition with_Token (c : Client.t) (token : string) : Client.t :=
  Client.mk (Client.URL c) (Client.APIURL c) (Client.HTTPClient c) (Client.HTTPHeader c) token.

(** [n] slashes. *)
Fixpoint slashes (n : nat) : string :=
  match n with
  | O => EmptyString
  | S n => String "/" (slashes n)
  end.

(** No byte of [s] is a slash. *)
Fixpoint slash_free (s : string) : bool :=
  match s with
  | EmptyString => true
  | String c s' => negb (Ascii.eqb c "/") && slash_free s'
  end.

(** An error and the errors it wraps, outermost first. *)
Fixpoint unwrap_chain (e : error) : list error :=
  e :: match e with
       | wrapError _ inner => unwrap_chain inner
       | _ => []
       end.

(** The non-nil boards of a slice of pointers. *)
Definition boards_behind (ps : list (option Board.t)) : list Board.t := omap id ps.

(** The double quote, for [%q]. *)
Definition quote : string := String (ascii_of_nat 34) EmptyString.

(** A library whose [http.NewRequest] checks the method as Go does: a
    method that is not a token is refused. *)
Definition strict_lib : GoLib := {|
  strings_ToLower := ToLower_ascii;
  CanonicalMIMEHeaderKey := CanonicalMIMEHeaderKey_ascii;
  NewRequest_check := λ method _,
    if string_forallb validHeaderFieldByte method && negb (String.eqb method "")
    then None
    else Some (foreignError ("net/http: invalid method " +:+ quote +:+ method +:+ quote));
  network := λ _, (None, Some (foreignError "dial tcp 127.0.0.1:8065: connect: connection refused"%string));
  range_order := map_to_list;
  range_order_perm := λ m, reflexivity (map_to_list m)
|}.

(** A stand-in for the JSON code: a login request is a pair of user name
    and password, marshalled to the user name; a login response is its
    token, and a board member its user ID, both decoded as the whole
    body. *)
Definition example_codec : Codec := {|
  BoardMember := string;
  LoginRequest := string * string;
  LoginResponse := string;
  LoginResponse_Token := λ token, token;
  json_Marshal_LoginRequest := λ request,
    match request with
    | Some (user, _) => (String.list_byte_of_string user, None)
    | None => (String.list_byte_of_string "null", None)
    end;
  LoginResponseFromJSON := λ body,
    match body with
    | Some s => Returns (Some (String.string_of_list_byte (Stream.pending s)), None)
    | None => Panics
    end;
  BoardMemberFromJSON := λ body,
    match body with
    | Some s => Returns (Some (String.string_of_list_byte (Stream.pending s)))
    | None => Panics
    end
|}.

(** The request [local_client] builds to delete the board b1. *)
Definition delete_b1_request : http_Request.t :=
  http_Request.mk "DELETE" "http://localhost:8065/api/v2/boards/b1"
    (Some {[ "X-Requested-With" := ["XMLHttpRequest"];
             "Authorization" := ["Bearer s3cr3t"] ]})
    (strings_NewReader "").

(** The request [local_client] builds to export the archive of b1. *)
Definition export_b1_request : http_Request.t :=
  http_Request.mk "GET" "http://localhost:8065/api/v2/boards/b1/archive/export"
    (Some {[ "X-Requested-With" := ["XMLHttpRequest"];
             "Authorization" := ["Bearer s3cr3t"] ]})
    (strings_NewReader "").

(** The request [local_client] builds to log alice in. *)
Definition login_alice_request : http_Request.t :=
  http_Request.mk "POST" "http://localhost:8065/api/v2/login"
    (Some {[ "X-Requested-With" := ["XMLHttpRequest"];
             "Authorization" := ["Bearer s3cr3t"] ]})
    (strings_NewReader "alice").

Definition ok_response (body : string) : http_Response.t :=
  http_Response.mk 200 (Some ∅) (Some (strings_NewReader body)).

Definition not_found_response : http_Response.t :=
  http_Response.mk 404 (Some ∅) (Some (strings_NewReader "board not found")).

(* ================================================================== *)
(** ** The create validator *)
(* ================================================================== *)

Section create_batch.
Implicit Types (boards : list Board.t) (blocks : list Block.t) (m : gmap string bool).

(** The first loop never panics on a slice of real boards, and the map it
    leaves holds what it held before plus the ID of every board. *)
Lemma register_boards_keys boards m :
  ∃ m', register_boards (Some <$> boards) m = Returns m'
        ∧ ∀ k, is_Some (m' !! k) ↔ is_Some (m !! k) ∨ k ∈ Board.ID <$> boards.
Proof.
  revert m. induction boards as [|bd boards IH]; intros m; simpl.
  - exists m. split; [done|]. intros k. rewrite elem_of_nil. tauto.
  - destruct (IH (<[Board.ID bd := true]> m)) as (m' & Hm' & Hk).
    exists m'. split; [exact Hm'|]. intros k. rewrite Hk, lookup_insert_is_Some.
    rewrite elem_of_cons. split.
    + intros [[->|[_ ?]]|?]; auto.
    + intros [?|[->|?]]; auto. destruct (decide (Board.ID bd = k)); auto.
Qed.

(** The second loop stops at the first block whose board the map lacks. *)
Lemma check_blocks_first_orphan boards blocks m :
  (∀ k, is_Some (m !! k) ↔ k ∈ Board.ID <$> boards) →
  check_blocks m (Some <$> blocks)
  = Returns ((λ b, BlockDoesntBelongToAnyBoardErr (Block.ID b)) <$> first_orphan boards blocks).
Proof.
  intros Hm. induction blocks as [|b blocks IH]; simpl; [done|].
  destruct (decide (orphan boards b)) as [Ho|Ho]; unfold orphan in Ho.
  - destruct (m !! Block.BoardID b) eqn:E; [|done].
    exfalso. apply Ho, Hm. by rewrite E.
  - apply dec_stable, Hm in Ho. destruct Ho as [v Hv]. by rewrite Hv.
Qed.

(** [first_orphan], in terms of the list alone. *)
Lemma first_orphan_Some boards blocks b :
  first_orphan boards blocks = Some b
  ↔ ∃ pre post, blocks = pre ++ b :: post
                ∧ Forall (λ x, ¬ orphan boards x) pre ∧ orphan boards b.
Proof.
  induction blocks as [|x blocks IH]; simpl.
  - split; [done|]. intros (pre & post & Heq & _). by destruct pre.
  - destruct (decide (orphan boards x)) as [Hx|Hx].
    + split.
      * intros [= ->]. exists [], blocks. by repeat split.
      * intros (pre & post & Heq & Hpre & Hb).
        destruct pre as [|y pre]; simplify_eq/=; [done|].
        by apply Forall_cons_1 in Hpre as [? _].
    + rewrite IH. split.
      * intros (pre & post & -> & Hpre & Hb). exists (x :: pre), post.
        repeat split; [|done]. by constructor.
      * intros (pre & post & Heq & Hpre & Hb).
        destruct pre as [|y pre]; simplify_eq/=; [done|].
        apply Forall_cons_1 in Hpre as [_ Hpre]. by exists pre, post.
Qed.

Lemma first_orphan_None boards blocks :
  first_orphan boards blocks = None ↔ Forall (λ x, ¬ orphan boards x) blocks.
Proof.
  induction blocks as [|x blocks IH]; simpl.
  - split; [by constructor | done].
  - destruct (decide (orphan boards x)) as [Hx|Hx].
    + split; [done|]. intros [? _]%Forall_cons_1. done.
    + rewrite IH. split; [by constructor|]. by intros [_ ?]%Forall_cons_1.
Qed.

(** The validator computes what the specification says, on every batch of
    real boards and blocks, whatever went over the network before. *)
Lemma BoardsAndBlocks_IsValid_refines boards blocks sent :
  (call BoardsAndBlocks_IsValid (batch_of boards blocks) sent).1
  = Returns (ValidateCreateBatch boards blocks).
Proof.
  unfold call, BoardsAndBlocks_IsValid, batch_of, mbind, M_bind, receiver, lift, mret, M_ret.
  simpl. rewrite !length_fmap.
  destruct boards as [|bd boards]; [done|].
  destruct blocks as [|b blocks]; [done|].
  rewrite !bool_decide_eq_false_2 by done.
  destruct (register_boards_keys (bd :: boards) ∅) as (m' & -> & Hk).
  cbn [fst]. rewrite (check_blocks_first_orphan (bd :: boards)); [done|].
  intros k. rewrite Hk, lookup_empty. split; [intros [[? [=]]|?]; done | by right].
Qed.

End create_batch.

(** C1. On every create batch of boards and blocks, [IsValid] returns
    [ErrNoBoardsInBoardsAndBlocks] exactly when the boards list is empty;
    otherwise [ErrNoBlocksInBoardsAndBlocks] exactly when the blocks list is
    empty; otherwise [BlockDoesntBelongToAnyBoardErr] with the ID of the
    first block, in list order, whose [BoardID] is the ID of no board of
    the batch; and nil exactly when none of these holds.  The three checks
    come in this order, so the answer is determined; the call always
    returns. *)
Theorem BoardsAndBlocks_IsValid_precedence
    (boards : list Board.t) (blocks : list Block.t) (sent : list http_Request.t) :
  let r := (call BoardsAndBlocks_IsValid (batch_of boards blocks) sent).1 in
  (r = Returns (Some ErrNoBoardsInBoardsAndBlocks) ↔ boards = [])
  ∧ (r = Returns (Some ErrNoBlocksInBoardsAndBlocks) ↔ boards ≠ [] ∧ blocks = [])
  ∧ (∀ blockID,
       r = Returns (Some (BlockDoesntBelongToAnyBoardErr blockID))
       ↔ boards ≠ []
         ∧ ∃ pre b post, blocks = pre ++ b :: post
                         ∧ Forall (λ x, ¬ orphan boards x) pre
                         ∧ orphan boards b
                         ∧ Block.ID b = blockID)
  ∧ (r = Returns None
     ↔ boards ≠ [] ∧ blocks ≠ [] ∧ Forall (λ x, ¬ orphan boards x) blocks)
  ∧ r = Returns (ValidateCreateBatch boards blocks).
Proof.
  intros r. subst r. rewrite BoardsAndBlocks_IsValid_refines.
  destruct boards as [|bd boards].
  { simpl. split; [done|]. split; [by split; [|intros [? _]]|].
    split; [|by split; [split; [|intros [? _]]|]].
    intros blockID. by split; [|intros [? _]]. }
  destruct blocks as [|b blocks].
  { simpl. split; [done|]. split; [done|].
    split; [|by split; [split; [|intros (_ & ? & _)]|]].
    intros blockID. split; [done|].
    intros (_ & pre & x & post & Heq & _). by destruct pre. }
  unfold ValidateCreateBatch.
  destruct (first_orphan (bd :: boards) (b :: blocks)) as [o|] eqn:E; simpl.
  - pose proof E as (pre & post & Heq & Hpre & Ho)%first_orphan_Some.
    split; [done|]. split; [by split; [|intros [_ ?]]|].
    split; [|split; [|done]].
    + intros blockID. split.
      * intros [= <-]. split; [done|]. by exists pre, o, post.
      * intros (_ & pre' & o' & post' & Heq' & Hpre' & Ho' & <-).
        assert (first_orphan (bd :: boards) (b :: blocks) = Some o') as E'
          by (apply first_orphan_Some; eauto).
        congruence.
    + split; [done|]. intros (_ & _ & Hall%first_orphan_None). congruence.
  - split; [done|]. split; [by split; [|intros [_ ?]]|].
    split; [|split; [|done]].
    + intros blockID. split; [done|].
      intros (_ & pre & o & post & Heq & Hpre & Ho & _).
      assert (first_orphan (bd :: boards) (b :: blocks) = Some o) as E'
        by (apply first_orphan_Some; eauto).
      congruence.
    + split; [|done]. intros _. split; [done|]. split; [done|].
      by apply first_orphan_None.
Qed.

(** The cases the specification lists for the create validator. *)
Example create_batch_no_boards :
  (call BoardsAndBlocks_IsValid
        (batch_of [] [Block.mk "c1" "b1" TypeCard]) []).1
  = Returns (Some ErrNoBoardsInBoardsAndBlocks).
Proof. reflexivity. Qed.

Example create_batch_no_blocks :
  (call BoardsAndBlocks_IsValid (batch_of [Board.mk "b1" "team"] []) []).1
  = Returns (Some ErrNoBlocksInBoardsAndBlocks).
Proof. reflexivity. Qed.

Example create_batch_orphan :
  (call BoardsAndBlocks_IsValid
        (batch_of [Board.mk "b1" "team"] [Block.mk "c1" "zzz" TypeCard]) []).1
  = Returns (Some (BlockDoesntBelongToAnyBoardErr "c1")).
Proof. vm_compute. reflexivity. Qed.

Example create_batch_two_boards_three_blocks :
  (call BoardsAndBlocks_IsValid
        (batch_of [Board.mk "A" "team"; Board.mk "B" "team"]
                  [Block.mk "x" "A" TypeCard; Block.mk "y" "A" TypeText;
                   Block.mk "z" "B" TypeView]) []).1
  = Returns None
  ∧ (call BoardsAndBlocks_IsValid
          (batch_of [Board.mk "A" "team"; Board.mk "B" "team"]
                    [Block.mk "x" "A" TypeCard; Block.mk "y" "A" TypeText;
                     Block.mk "z" "C" TypeView]) []).1
    = Returns (Some (BlockDoesntBelongToAnyBoardErr "z")).
Proof. split; vm_compute; reflexivity. Qed.

(** A nil pointer in either slice is dereferenced once both slices have
    passed the emptiness checks: the call panics, unless an orphan block
    comes before the nil block. *)
Example create_batch_nil_entry :
  (call BoardsAndBlocks_IsValid
        (BoardsAndBlocks.mk [None] [Some (Block.mk "c1" "b1" TypeCard)]) []).1
  = Panics
  ∧ (call BoardsAndBlocks_IsValid
          (BoardsAndBlocks.mk [Some (Board.mk "b1" "team")]
                              [Some (Block.mk "c1" "b1" TypeCard); None]) []).1
    = Panics
  ∧ (call BoardsAndBlocks_IsValid
          (BoardsAndBlocks.mk [Some (Board.mk "b1" "team")]
                              [Some (Block.mk "c1" "zzz" TypeCard); None]) []).1
    = Returns (Some (BlockDoesntBelongToAnyBoardErr "c1")).
Proof. repeat split; vm_compute; reflexivity. Qed.

(* ================================================================== *)
(** ** The patch validator *)
(* ================================================================== *)

(** C2. On every patch batch, [IsValid] returns
    [ErrNoBoardsInBoardsAndBlocks] exactly when [BoardIDs] is empty;
    otherwise the board mismatch error exactly when [BoardIDs] and
    [BoardPatches] differ in length; otherwise the block mismatch error
    exactly when [BlockIDs] and [BlockPatches] differ in length; otherwise
    nil.  Whether [BlockIDs] is empty plays no part. *)
Theorem PatchBoardsAndBlocks_IsValid_precedence {BoardPatch BlockPatch : Type}
    (dbab : PatchBoardsAndBlocks.t BoardPatch BlockPatch) (sent : list http_Request.t) :
  let r := (call PatchBoardsAndBlocks_IsValid dbab sent).1 in
  let boards_aligned :=
    length (PatchBoardsAndBlocks.BoardIDs dbab) = length (PatchBoardsAndBlocks.BoardPatches dbab) in
  let blocks_aligned :=
    length (PatchBoardsAndBlocks.BlockIDs dbab) = length (PatchBoardsAndBlocks.BlockPatches dbab) in
  (r = Returns (Some ErrNoBoardsInBoardsAndBlocks) ↔ PatchBoardsAndBlocks.BoardIDs dbab = [])
  ∧ (r = Returns (Some ErrBoardIDsAndPatchesMissmatchInBoardsAndBlocks)
     ↔ PatchBoardsAndBlocks.BoardIDs dbab ≠ [] ∧ ¬ boards_aligned)
  ∧ (r = Returns (Some ErrBlockIDsAndPatchesMissmatchInBoardsAndBlocks)
     ↔ PatchBoardsAndBlocks.BoardIDs dbab ≠ [] ∧ boards_aligned ∧ ¬ blocks_aligned)
  ∧ (r = Returns None
     ↔ PatchBoardsAndBlocks.BoardIDs dbab ≠ [] ∧ boards_aligned ∧ blocks_aligned).
Proof.
  destruct dbab as [ids patches bids bpatches]. simpl.
  unfold call, PatchBoardsAndBlocks_IsValid, mbind, M_bind, receiver, mret, M_ret. simpl.
  destruct ids as [|i ids]; simpl.
  { split; [done|]. split; [by split; [|intros [? _]]|].
    split; by split; [|intros [? _]]. }
  case_bool_decide as Hb; simpl.
  { split; [done|]. split; [done|]. split; by split; [|intros (_ & ? & _)]. }
  case_bool_decide as Hk; simpl.
  { split; [done|]. split; [by split; [|intros [_ ?]]|].
    split; [done|]. by split; [|intros (_ & _ & ?)]. }
  split; [done|]. split; [by split; [|intros [_ ?]]|].
  split; [by split; [|intros (_ & _ & ?)]|]. done.
Qed.

(** The cases the specification lists for the patch validator. *)
Example patch_batch_board_mismatch :
  (call PatchBoardsAndBlocks_IsValid
        (PatchBoardsAndBlocks.mk ["b1"; "b2"] [Some ()] [] ([] : list (option unit))) []).1
  = Returns (Some ErrBoardIDsAndPatchesMissmatchInBoardsAndBlocks).
Proof. reflexivity. Qed.

Example patch_batch_block_mismatch :
  (call PatchBoardsAndBlocks_IsValid
        (PatchBoardsAndBlocks.mk ["b1"; "b2"] [Some (); Some ()]
                                 ["c1"; "c2"] [Some (); Some (); Some ()]) []).1
  = Returns (Some ErrBlockIDsAndPatchesMissmatchInBoardsAndBlocks).
Proof. reflexivity. Qed.

(** When the three checks pass, the patch validator answers nil. *)
Lemma PatchBoardsAndBlocks_IsValid_ok {BoardPatch BlockPatch : Type}
    (dbab : PatchBoardsAndBlocks.t BoardPatch BlockPatch) (sent : list http_Request.t) :
  PatchBoardsAndBlocks.BoardIDs dbab ≠ [] →
  length (PatchBoardsAndBlocks.BoardIDs dbab) = length (PatchBoardsAndBlocks.BoardPatches dbab) →
  length (PatchBoardsAndBlocks.BlockIDs dbab) = length (PatchBoardsAndBlocks.BlockPatches dbab) →
  (call PatchBoardsAndBlocks_IsValid dbab sent).1 = Returns None.
Proof.
  destruct dbab as [ids patches bids bpatches]. simpl. intros Hne Hb Hk.
  unfold call, PatchBoardsAndBlocks_IsValid, mbind, M_bind, receiver, mret, M_ret. simpl.
  destruct ids as [|i ids]; [done|]. simpl in *.
  rewrite (bool_decide_eq_false_2 (_ ≠ length patches)) by (intros ?; done).
  rewrite (bool_decide_eq_false_2 (_ ≠ length bpatches)) by (intros ?; done).
  done.
Qed.

(** C7. A patch batch that names at least one board, has as many board
    patches as board IDs, and has no block IDs and no block patches, is
    valid; a create batch is never valid without both a board and a
    block. *)
Theorem board_only_patch_batch_valid {BoardPatch BlockPatch : Type}
    (dbab : PatchBoardsAndBlocks.t BoardPatch BlockPatch) (sent : list http_Request.t) :
  PatchBoardsAndBlocks.BoardIDs dbab ≠ [] →
  length (PatchBoardsAndBlocks.BoardIDs dbab) = length (PatchBoardsAndBlocks.BoardPatches dbab) →
  PatchBoardsAndBlocks.BlockIDs dbab = [] →
  PatchBoardsAndBlocks.BlockPatches dbab = [] →
  (call PatchBoardsAndBlocks_IsValid dbab sent).1 = Returns None
  ∧ ∀ bab sent',
      (call BoardsAndBlocks_IsValid bab sent').1 = Returns None →
      BoardsAndBlocks.Boards bab ≠ [] ∧ BoardsAndBlocks.Blocks bab ≠ [].
Proof.
  intros Hne Hlen Hids Hpatches. split.
  - apply PatchBoardsAndBlocks_IsValid_ok; [done..|]. by rewrite Hids, Hpatches.
  - intros [boards blocks] sent'.
    unfold call, BoardsAndBlocks_IsValid, mbind, M_bind, receiver, mret, M_ret. simpl.
    destruct boards; [done|]. destruct blocks; [done|]. done.
Qed.

Lemma board_only_patch_batch_valid_witness :
  (PatchBoardsAndBlocks.BoardIDs board_only_patch ≠ []
   ∧ length (PatchBoardsAndBlocks.BoardIDs board_only_patch)
     = length (PatchBoardsAndBlocks.BoardPatches board_only_patch)
   ∧ PatchBoardsAndBlocks.BlockIDs board_only_patch = []
   ∧ PatchBoardsAndBlocks.BlockPatches board_only_patch = [])
  ∧ (call PatchBoardsAndBlocks_IsValid board_only_patch []).1 = Returns None.
Proof.
  split.
  - repeat split; simpl; congruence.
  - apply (board_only_patch_batch_valid board_only_patch []); simpl; congruence.
Defined.

(* ================================================================== *)
(** ** Both validators leave the world alone *)
(* ================================================================== *)

Lemma BoardsAndBlocks_IsValid_world (w : World BoardsAndBlocks.t) :
  (BoardsAndBlocks_IsValid w).2 = w.
Proof.
  unfold BoardsAndBlocks_IsValid, mbind, M_bind, receiver, lift, mret, M_ret. simpl.
  repeat case_bool_decide; try done.
  destruct (register_boards _ _); [|done]. by destruct (check_blocks _ _).
Qed.

Lemma PatchBoardsAndBlocks_IsValid_world {BoardPatch BlockPatch : Type}
    (w : World (PatchBoardsAndBlocks.t BoardPatch BlockPatch)) :
  (PatchBoardsAndBlocks_IsValid w).2 = w.
Proof.
  unfold PatchBoardsAndBlocks_IsValid, mbind, M_bind, receiver, mret, M_ret. simpl.
  by repeat case_bool_decide.
Qed.

(** C8. Both validators are pure and deterministic: a call leaves the
    struct behind the receiver as it was, hands nothing to the network, and
    a second call on the world the first one left gives the same result. *)
Theorem validators_pure :
  (∀ (bab : BoardsAndBlocks.t) (sent : list http_Request.t),
     let first := call BoardsAndBlocks_IsValid bab sent in
     this first.2 = bab
     ∧ wire first.2 = sent
     ∧ (BoardsAndBlocks_IsValid first.2).1 = first.1)
  ∧ (∀ (BoardPatch BlockPatch : Type)
       (dbab : PatchBoardsAndBlocks.t BoardPatch BlockPatch) (sent : list http_Request.t),
       let first := call PatchBoardsAndBlocks_IsValid dbab sent in
       this first.2 = dbab
       ∧ wire first.2 = sent
       ∧ (PatchBoardsAndBlocks_IsValid first.2).1 = first.1).
Proof.
  split.
  - intros bab sent first. subst first. unfold call.
    rewrite BoardsAndBlocks_IsValid_world. done.
  - intros BoardPatch BlockPatch dbab sent first. subst first. unfold call.
    rewrite PatchBoardsAndBlocks_IsValid_world. done.
Qed.

(* ================================================================== *)
(** ** The block-type parser and its error *)
(* ================================================================== *)

Lemma String_eqb_false (a b : string) : a ≠ b → String.eqb a b = false.
Proof. apply String.eqb_neq. Qed.

(** C9. When the lower-case form of [s] is none of the nine block-type
    names, [BlockTypeFromString s] returns the error [ErrInvalidBlockType{s}]
    as a value, and [IsErrInvalidBlockType] answers false on it:
    [errors.As] is asked for the pointer type, which that value does not
    have, whereas a pointer to the same struct is recognised. *)
Theorem BlockTypeFromString_error_unrecognised `{GoLib} (s : string) :
  strings_ToLower s ∉ block_type_names →
  BlockTypeFromString s = (TypeUnknown, Some (ErrInvalidBlockType s))
  ∧ IsErrInvalidBlockType (BlockTypeFromString s).2 = false
  ∧ IsErrInvalidBlockType (Some (ptr_ErrInvalidBlockType s)) = true.
Proof.
  intros Hnot.
  assert (BlockTypeFromString s = (TypeUnknown, Some (ErrInvalidBlockType s))) as ->.
  { unfold BlockTypeFromString, block_type_names in *.
    repeat (rewrite String_eqb_false;
            [| intros Heq; apply Hnot; rewrite Heq; repeat constructor]).
    done. }
  done.
Qed.

Lemma BlockTypeFromString_error_unrecognised_witness :
  (ToLower_ascii "Table" ∉ block_type_names)
  ∧ BlockTypeFromString (H := example_lib) "Table"
    = (TypeUnknown, Some (ErrInvalidBlockType "Table"))
  ∧ IsErrInvalidBlockType (BlockTypeFromString (H := example_lib) "Table").2 = false
  ∧ IsErrInvalidBlockType (Some (ptr_ErrInvalidBlockType "Table")) = true.
Proof.
  assert (ToLower_ascii "Table" ∉ block_type_names) as Hnot.
  { apply (bool_decide_unpack _). vm_compute. exact I. }
  split; [exact Hnot|].
  exact (BlockTypeFromString_error_unrecognised (H := example_lib) "Table" Hnot).
Defined.

(* ================================================================== *)
(** ** Error responses *)
(* ================================================================== *)

(** C10. [BuildErrorResponse(nil, e)] has status code 0, an empty header
    map that is not nil, and the error [e]; for a response [r] that is not
    nil, [BuildErrorResponse(r, e)] carries the status code and the headers
    of [r], and the error [e]. *)
Theorem BuildErrorResponse_fields :
  (∀ e : option error,
     Response.StatusCode (BuildErrorResponse None e) = 0
     ∧ Response.Header (BuildErrorResponse None e) = Some ∅
     ∧ Response.Error (BuildErrorResponse None e) = e)
  ∧ (∀ (r : http_Response.t) (e : option error),
       Response.StatusCode (BuildErrorResponse (Some r) e) = http_Response.StatusCode r
       ∧ Response.Header (BuildErrorResponse (Some r) e) = http_Response.Header r
       ∧ Response.Error (BuildErrorResponse (Some r) e) = e).
Proof. split; intros; repeat split. Qed.

(* ================================================================== *)
(** ** The transport: classifying the answer *)
(* ================================================================== *)

Section transport.
Context `{GoLib}.
Implicit Types (c : Client.t) (rq : http_Request.t) (rp : http_Response.t)
  (sent : list http_Request.t) (opts : list requestOption).

(** Once the request is built and the client has an HTTP client, the call
    hands the request to it, exactly once, and classifies its answer. *)
Lemma doAPIRequestReader_run c sent method url data etag opts rq Do :
  doAPIRequestReader_request c method url data opts = Returns (inl rq) →
  Client.HTTPClient c = Some Do →
  call (doAPIRequestReader method url data etag opts) c sent
  = (doAPIRequestReader_result (Do rq).1 (Do rq).2, mkWorld c (sent ++ [rq])).
Proof.
  intros Hrq HDo.
  unfold call, doAPIRequestReader, mbind, M_bind, receiver, lift, send. simpl.
  rewrite Hrq, HDo. simpl. by destruct (Do rq) as [rp err].
Qed.

(** When [http.NewRequest] refuses the method or the URL, nothing is sent. *)
Lemma doAPIRequestReader_refused c sent method url data etag opts err :
  http_NewRequest method url data = inr err →
  call (doAPIRequestReader method url data etag opts) c sent
  = (Returns (None, Some err), mkWorld c sent).
Proof.
  intros Hnew.
  unfold call, doAPIRequestReader, doAPIRequestReader_request,
    mbind, M_bind, receiver, lift, mret, M_ret. simpl.
  by rewrite Hnew.
Qed.

(** What is made of an answer whose body cannot be read to its end: the
    read error, wrapped, and the response with its body closed. *)
Lemma doAPIRequestReader_result_read_error rp body e :
  StatusMultipleChoices ≤ http_Response.StatusCode rp →
  http_Response.StatusCode rp ≠ StatusNotModified →
  http_Response.Body rp = Some body →
  Stream.fault body = Some e →
  doAPIRequestReader_result (Some rp) None
  = Returns (Some (http_Response.mk (http_Response.StatusCode rp) (http_Response.Header rp)
                                    (Some (Stream.mk [] (Some e) true))),
             Some (wrapError ("error when parsing response with code "
                              +:+ fmt_d (http_Response.StatusCode rp)
                              +:+ ": " +:+ error_Error e) e)).
Proof.
  intros Hge Hne Hbody Hfault. unfold doAPIRequestReader_result.
  rewrite bool_decide_eq_false_2, bool_decide_eq_true_2 by done.
  rewrite Hbody. simpl. unfold drain_and_close. simpl. by rewrite Hfault.
Qed.

(** C5. When the HTTP client answers the request with a response of status
    304 and no error, the call returns that response with a nil error: the
    very response it was given, body unread and open as it arrived.  The
    test for 304 comes before the test for 300 and above. *)
Theorem not_modified_returned_unread c sent method url data etag opts rq Do rp :
  doAPIRequestReader_request c method url data opts = Returns (inl rq) →
  Client.HTTPClient c = Some Do →
  Do rq = (Some rp, None) →
  http_Response.StatusCode rp = StatusNotModified →
  (call (doAPIRequestReader method url data etag opts) c sent).1 = Returns (Some rp, None).
Proof.
  intros Hrq HDo Hanswer H304.
  rewrite (doAPIRequestReader_run _ _ _ _ _ _ _ _ _ Hrq HDo), Hanswer. simpl.
  unfold doAPIRequestReader_result. by rewrite bool_decide_eq_true_2.
Qed.

(** C6. When the HTTP client answers the request with an error, or with no
    response, the call returns that error and a nil response. *)
Theorem transport_failure_returns_no_response c sent method url data etag opts rq Do
    (rp : option http_Response.t) (err : option error) :
  doAPIRequestReader_request c method url data opts = Returns (inl rq) →
  Client.HTTPClient c = Some Do →
  Do rq = (rp, err) →
  is_Some err ∨ rp = None →
  (call (doAPIRequestReader method url data etag opts) c sent).1 = Returns (None, err).
Proof.
  intros Hrq HDo Hanswer Hfail.
  rewrite (doAPIRequestReader_run _ _ _ _ _ _ _ _ _ Hrq HDo), Hanswer. simpl.
  unfold doAPIRequestReader_result.
  destruct Hfail as [[e ->] | ->]; [done|]. by destruct err.
Qed.

(** C4, amended. When the HTTP client answers the request with a response
    of status 300 or above, other than 304, whose body is there and is read
    to its end without a read error, the call returns the response with its
    status code and headers, its body drained and closed, and the error
    [RequestReaderError] holding exactly the bytes of the body. *)
Theorem error_status_returns_body c sent method url data etag opts rq Do rp body :
  doAPIRequestReader_request c method url data opts = Returns (inl rq) →
  Client.HTTPClient c = Some Do →
  Do rq = (Some rp, None) →
  StatusMultipleChoices ≤ http_Response.StatusCode rp →
  http_Response.StatusCode rp ≠ StatusNotModified →
  http_Response.Body rp = Some body →
  Stream.fault body = None →
  (call (doAPIRequestReader method url data etag opts) c sent).1
  = Returns (Some (http_Response.mk (http_Response.StatusCode rp) (http_Response.Header rp)
                                    (Some (Stream.mk [] None true))),
             Some (RequestReaderError (Stream.pending body))).
Proof.
  intros Hrq HDo Hanswer Hge Hne Hbody Hfault.
  rewrite (doAPIRequestReader_run _ _ _ _ _ _ _ _ _ Hrq HDo), Hanswer. simpl.
  unfold doAPIRequestReader_result.
  rewrite bool_decide_eq_false_2, bool_decide_eq_true_2 by done.
  rewrite Hbody. simpl. unfold drain_and_close. simpl. by rewrite Hfault.
Qed.

End transport.

(* ================================================================== *)
(** ** The transport: the headers of the request *)
(* ================================================================== *)

Section request_headers.
Context `{GoLib}.
Implicit Types (c : Client.t) (rq : http_Request.t) (opts : list requestOption)
  (entries : list (string * string)) (m : gmap string (list string)).

Lemma set_headers_Some entries m :
  set_headers entries (Some m) = Returns (Some (set_all entries m)).
Proof.
  revert m. induction entries as [|[k v] entries IH]; intros m; [done|]. apply IH.
Qed.

Lemma set_headers_inv entries h h' :
  set_headers entries h = Returns h' →
  (entries = [] ∧ h' = h) ∨ (∃ m, h = Some m ∧ h' = Some (set_all entries m)).
Proof.
  destruct h as [m|].
  - rewrite set_headers_Some. intros [= <-]. right. by exists m.
  - destruct entries as [|[k v] entries]; simpl; [intros [= <-]; by left | done].
Qed.

(** A key that no entry canonicalises to keeps its values. *)
Lemma lookup_set_all_miss entries m key :
  (∀ k v, (k, v) ∈ entries → CanonicalMIMEHeaderKey k ≠ key) →
  set_all entries m !! key = m !! key.
Proof.
  revert m. induction entries as [|[k v] entries IH]; intros m Hmiss; [done|].
  unfold set_all in *. simpl. rewrite IH.
  - apply lookup_insert_ne. apply (Hmiss k v). by left.
  - intros k' v' Hin. apply (Hmiss k' v'). by right.
Qed.

(** A key that the entries agree on ends up with the entry's value alone. *)
Lemma lookup_set_all_hit entries m k v :
  (∀ k' v', (k', v') ∈ entries →
            CanonicalMIMEHeaderKey k' = CanonicalMIMEHeaderKey k → v' = v) →
  m !! CanonicalMIMEHeaderKey k = Some [v] ∨ (k, v) ∈ entries →
  set_all entries m !! CanonicalMIMEHeaderKey k = Some [v].
Proof.
  revert m. induction entries as [|[k0 v0] entries IH]; intros m Hagree Hin.
  - destruct Hin as [?|Hin]; [done | by apply elem_of_nil in Hin].
  - unfold set_all in *. simpl. apply IH.
    + intros k' v' Hin'. apply Hagree. by right.
    + destruct (decide (CanonicalMIMEHeaderKey k0 = CanonicalMIMEHeaderKey k)) as [Heq|Hne].
      * left. rewrite Heq, lookup_insert_eq.
        by rewrite (Hagree k0 v0 ltac:(by left) Heq).
      * destruct Hin as [Hm|Hin].
        -- left. by rewrite lookup_insert_ne.
        -- apply elem_of_cons in Hin as [[= -> ->]|Hin]; [done | by right].
Qed.

(** The entries a [range] loop visits are the entries of the map. *)
Lemma elem_of_range_order (hm : gmap string string) k v :
  (k, v) ∈ range_order hm ↔ hm !! k = Some v.
Proof. rewrite (range_order_perm hm). apply elem_of_map_to_list. Qed.

(** The steps that lead to a built request. *)
Lemma doAPIRequestReader_request_inv c method url data opts rq :
  doAPIRequestReader_request c method url data opts = Returns (inl rq) →
  ∃ rq0 rq1 h1 h2,
    http_NewRequest method url data = inl rq0
    ∧ apply_opts opts rq0 = Returns rq1
    ∧ match Client.HTTPHeader c with
      | Some hm =>
          if bool_decide (0 < size hm)%nat
          then set_headers (range_order hm) (http_Request.Header rq1)
          else Returns (http_Request.Header rq1)
      | None => Returns (http_Request.Header rq1)
      end = Returns h1
    ∧ (if bool_decide (Client.Token c ≠ "")
       then Header_Set "Authorization" ("Bearer " +:+ Client.Token c) h1
       else Returns h1) = Returns h2
    ∧ rq = set_Header rq1 h2.
Proof.
  unfold doAPIRequestReader_request.
  destruct (http_NewRequest method url data) as [rq0|err]; [|done].
  unfold mbind, outcome_mbind. simpl.
  destruct (apply_opts opts rq0) as [rq1|] eqn:E0; [|done]. simpl.
  match goal with |- outcome_bind _ ?step = _ → _ => destruct step as [h1|] eqn:E1 end; [|done].
  simpl.
  match goal with |- outcome_bind _ ?step = _ → _ => destruct step as [h2|] eqn:E2 end; [|done].
  simpl. intros [= <-]. exists rq0, rq1, h1, h2.
  split; [done|]. split; [done|]. split; [exact E1|]. split; [exact E2|done].
Qed.

(** C3, amended. The request that the transport hands to the HTTP client
    is built in this order: the caller's options run first, on the fresh
    request; then every header of the client's [HTTPHeader] is set (for a
    client made by [NewClient], the identification header
    X-Requested-With); then, if the token is not empty, Authorization is
    set to Bearer and the token.  So the request carries the bearer token
    and the client's headers whatever the options did, and a header put by
    an option survives only under a key that the client sets nothing on. *)
Theorem client_headers_set_after_options c method url data etag opts rq :
  doAPIRequestReader_request c method url data opts = Returns (inl rq) →
  (∀ sent Do, Client.HTTPClient c = Some Do →
     wire (call (doAPIRequestReader method url data etag opts) c sent).2 = sent ++ [rq])
  ∧ ∃ rq0 rq1,
      http_NewRequest method url data = inl rq0
      ∧ apply_opts opts rq0 = Returns rq1
      ∧ (Client.Token c ≠ "" →
         Header_values (CanonicalMIMEHeaderKey "Authorization") (http_Request.Header rq)
         = Some ["Bearer " +:+ Client.Token c])
      ∧ (∀ hm k v,
           Client.HTTPHeader c = Some hm → hm !! k = Some v →
           (∀ k', is_Some (hm !! k') →
                  CanonicalMIMEHeaderKey k' = CanonicalMIMEHeaderKey k → k' = k) →
           Client.Token c = ""
           ∨ CanonicalMIMEHeaderKey k ≠ CanonicalMIMEHeaderKey "Authorization" →
           Header_values (CanonicalMIMEHeaderKey k) (http_Request.Header rq) = Some [v])
      ∧ (∀ key,
           (∀ hm k, Client.HTTPHeader c = Some hm → is_Some (hm !! k) →
                    CanonicalMIMEHeaderKey k ≠ key) →
           Client.Token c = "" ∨ key ≠ CanonicalMIMEHeaderKey "Authorization" →
           Header_values key (http_Request.Header rq)
           = Header_values key (http_Request.Header rq1)).
Proof.
  intros Hrq. split.
  { intros sent Do HDo. by rewrite (doAPIRequestReader_run _ _ _ _ _ _ _ _ _ Hrq HDo). }
  apply doAPIRequestReader_request_inv in Hrq as (rq0 & rq1 & h1 & h2 & Hnew & Hopts & E1 & E2 & ->).
  exists rq0, rq1. split; [done|]. split; [done|]. simpl.
  (* the bearer step *)
  assert (Client.Token c ≠ "" →
          ∃ m1, h1 = Some m1
                ∧ h2 = Some (<[CanonicalMIMEHeaderKey "Authorization"
                               := ["Bearer " +:+ Client.Token c]]> m1)) as Hbearer.
  { intros Htok. rewrite bool_decide_eq_true_2 in E2 by done.
    destruct h1 as [m1|]; [|done]. injection E2 as <-. by exists m1. }
  assert (Client.Token c = "" → h2 = h1) as Hnobearer.
  { intros Htok. rewrite bool_decide_eq_false_2 in E2 by (by intros ?). by injection E2. }
  (* the values under [key] after the bearer step, away from Authorization *)
  assert (∀ key, Client.Token c = "" ∨ key ≠ CanonicalMIMEHeaderKey "Authorization" →
                 Header_values key h2 = Header_values key h1) as Hkeep.
  { intros key Hkey. destruct (decide (Client.Token c = "")) as [Htok|Htok].
    - by rewrite Hnobearer.
    - destruct Hkey as [?|Hkey]; [done|].
      destruct (Hbearer Htok) as (m1 & -> & ->). simpl. by apply lookup_insert_ne. }
  split; [|split].
  - intros Htok. destruct (Hbearer Htok) as (m1 & -> & ->). simpl. apply lookup_insert_eq.
  - intros hm k v Hhm Hk Huniq Hkey. rewrite Hkeep by done.
    rewrite Hhm in E1.
    assert ((k, v) ∈ range_order hm) as Hin by by apply elem_of_range_order.
    rewrite bool_decide_eq_true_2 in E1.
    2:{ destruct (size hm) eqn:Es; [|lia].
        apply map_size_empty_inv in Es. subst hm. by rewrite lookup_empty in Hk. }
    apply set_headers_inv in E1 as [[Hnil _]|(m0 & _ & ->)].
    { rewrite Hnil in Hin. by apply elem_of_nil in Hin. }
    simpl. apply lookup_set_all_hit; [|by right].
    intros k' v' Hin' Hcanon. apply elem_of_range_order in Hin'.
    assert (k' = k) as -> by (apply Huniq; [by rewrite Hin'|done]). congruence.
  - intros key Hmiss Hkey. rewrite Hkeep by done.
    destruct (Client.HTTPHeader c) as [hm|] eqn:Hhm; simpl in E1; [|by injection E1 as <-].
    destruct (bool_decide (0 < size hm)%nat); [|by injection E1 as <-].
    apply set_headers_inv in E1 as [[_ ->]|(m0 & -> & ->)]; [done|].
    simpl. apply lookup_set_all_miss.
    intros k v Hin. apply elem_of_range_order in Hin. apply (Hmiss hm k); [done|].
    by rewrite Hin.
Qed.

End request_headers.

(* ================================================================== *)
(** ** The transport on concrete servers *)
(* ================================================================== *)

(** A caller sets Authorization and X-Requested-With through its options;
    the request that goes out carries the client's values for both, not the
    caller's. *)
Lemma caller_headers_do_not_override :
  (λ rq, (Header_values "Authorization" (http_Request.Header rq),
          Header_values "X-Requested-With" (http_Request.Header rq)))
    <$> wire (call (doAPIRequestReader (H := example_lib) "GET" boards_url
                      (strings_NewReader "") "" caller_options)
                   local_client []).2
  = [(Some ["Bearer s3cr3t"], Some ["XMLHttpRequest"])]
  ∧ (λ rq, (Header_values "Authorization" (http_Request.Header rq),
            Header_values "X-Requested-With" (http_Request.Header rq)))
      <$> wire (call (doAPIRequestReader (H := example_lib) "GET" boards_url
                        (strings_NewReader "") "" caller_options)
                     local_client []).2
    ≠ [(Some ["Basic Y2FsbGVyOnB3"], Some ["fetch"])].
Proof. split; vm_compute; [reflexivity | discriminate]. Qed.

Lemma client_headers_set_after_options_witness :
  doAPIRequestReader_request (H := example_lib) local_client "GET" boards_url
    (strings_NewReader "") caller_options
  = Returns (inl boards_request)
  ∧ Header_values (CanonicalMIMEHeaderKey_ascii "Authorization")
      (http_Request.Header boards_request)
    = Some ["Bearer " +:+ Client.Token local_client].
Proof.
  assert (doAPIRequestReader_request (H := example_lib) local_client "GET" boards_url
            (strings_NewReader "") caller_options
          = Returns (inl boards_request)) as Hrq
    by (vm_compute; reflexivity).
  split; [exact Hrq|].
  destruct (client_headers_set_after_options (H := example_lib) local_client "GET"
              boards_url (strings_NewReader "") "" caller_options boards_request Hrq)
    as (_ & rq0 & rq1 & _ & _ & Hbearer & _).
  apply Hbearer. vm_compute. discriminate.
Defined.

Lemma not_modified_returned_unread_witness :
  (doAPIRequestReader_request (H := example_lib)
     (with_HTTPClient local_client (simulated_backend 304 (strings_NewReader "")))
     "GET" boards_url (strings_NewReader "") []
   = Returns (inl boards_request)
   ∧ simulated_backend 304 (strings_NewReader "") boards_request
     = (Some not_modified_response, None)
   ∧ http_Response.StatusCode not_modified_response = StatusNotModified)
  ∧ (call (doAPIRequestReader (H := example_lib) "GET" boards_url (strings_NewReader "") "" [])
          (with_HTTPClient local_client (simulated_backend 304 (strings_NewReader ""))) []).1
    = Returns (Some not_modified_response, None).
Proof.
  assert (doAPIRequestReader_request (H := example_lib)
            (with_HTTPClient local_client (simulated_backend 304 (strings_NewReader "")))
            "GET" boards_url (strings_NewReader "") []
          = Returns (inl boards_request)) as Hrq
    by (vm_compute; reflexivity).
  split; [by repeat split|].
  by apply (not_modified_returned_unread (H := example_lib) _ [] _ _ _ "" _ boards_request
              (simulated_backend 304 (strings_NewReader "")) not_modified_response Hrq).
Defined.

Lemma transport_failure_returns_no_response_witness :
  (doAPIRequestReader_request (H := example_lib) local_client
     "GET" boards_url (strings_NewReader "") []
   = Returns (inl boards_request)
   ∧ Client.HTTPClient local_client = Some (network (GoLib := example_lib))
   ∧ network (GoLib := example_lib) boards_request = (None, Some connection_refused))
  ∧ (call (doAPIRequestReader (H := example_lib) "GET" boards_url (strings_NewReader "") "" [])
          local_client []).1
    = Returns (None, Some connection_refused).
Proof.
  assert (doAPIRequestReader_request (H := example_lib) local_client
            "GET" boards_url (strings_NewReader "") []
          = Returns (inl boards_request)) as Hrq
    by (vm_compute; reflexivity).
  split; [by repeat split|].
  apply (transport_failure_returns_no_response (H := example_lib) local_client [] _ _ _ "" _
           boards_request (network (GoLib := example_lib)) None (Some connection_refused) Hrq).
  - reflexivity.
  - reflexivity.
  - left. by eexists.
Defined.

(** Status 500 with the body "boom". *)
Lemma error_status_returns_body_witness :
  (doAPIRequestReader_request (H := example_lib)
     (with_HTTPClient local_client (simulated_backend 500 (strings_NewReader "boom")))
     "GET" boards_url (strings_NewReader "") []
   = Returns (inl boards_request)
   ∧ simulated_backend 500 (strings_NewReader "boom") boards_request
     = (Some boom_response, None)
   ∧ StatusMultipleChoices ≤ http_Response.StatusCode boom_response
   ∧ http_Response.StatusCode boom_response ≠ StatusNotModified
   ∧ http_Response.Body boom_response = Some (strings_NewReader "boom")
   ∧ Stream.fault (strings_NewReader "boom") = None)
  ∧ (call (doAPIRequestReader (H := example_lib) "GET" boards_url (strings_NewReader "") "" [])
          (with_HTTPClient local_client (simulated_backend 500 (strings_NewReader "boom"))) []).1
    = Returns (Some (http_Response.mk 500 (Some ∅) (Some (Stream.mk [] None true))),
               Some (RequestReaderError (String.list_byte_of_string "boom"))).
Proof.
  assert (doAPIRequestReader_request (H := example_lib)
            (with_HTTPClient local_client (simulated_backend 500 (strings_NewReader "boom")))
            "GET" boards_url (strings_NewReader "") []
          = Returns (inl boards_request)) as Hrq
    by (vm_compute; reflexivity).
  assert (StatusMultipleChoices ≤ http_Response.StatusCode boom_response) as Hge
    by (vm_compute; discriminate).
  assert (http_Response.StatusCode boom_response ≠ StatusNotModified) as Hne
    by (vm_compute; discriminate).
  split; [by repeat split|].
  by apply (error_status_returns_body (H := example_lib) _ [] _ _ _ "" _ boards_request
              (simulated_backend 500 (strings_NewReader "boom")) boom_response
              (strings_NewReader "boom") Hrq).
Defined.

(** Status 500 with a body whose reading breaks off: the error returned is
    the wrapped read error, not a [RequestReaderError], and the bytes read
    before the failure are dropped. *)
Lemma error_status_with_broken_body :
  (call (doAPIRequestReader (H := example_lib) "GET" boards_url (strings_NewReader "") "" [])
        (with_HTTPClient local_client (simulated_backend 500 broken_body)) []).1
  = Returns (Some (http_Response.mk 500 (Some ∅)
                     (Some (Stream.mk [] (Some (foreignError "unexpected EOF")) true))),
             Some (wrapError "error when parsing response with code 500: unexpected EOF"
                             (foreignError "unexpected EOF")))
  ∧ ¬ ∃ rp buf,
        (call (doAPIRequestReader (H := example_lib) "GET" boards_url
                 (strings_NewReader "") "" [])
              (with_HTTPClient local_client (simulated_backend 500 broken_body)) []).1
        = Returns (rp, Some (RequestReaderError buf)).
Proof.
  assert ((call (doAPIRequestReader (H := example_lib) "GET" boards_url
                   (strings_NewReader "") "" [])
                (with_HTTPClient local_client (simulated_backend 500 broken_body)) []).1
          = Returns (Some (http_Response.mk 500 (Some ∅)
                             (Some (Stream.mk [] (Some (foreignError "unexpected EOF")) true))),
                     Some (wrapError "error when parsing response with code 500: unexpected EOF"
                                     (foreignError "unexpected EOF")))) as Hrun
    by (vm_compute; reflexivity).
  split; [exact Hrun|]. rewrite Hrun. intros (rp & buf & [=]).
Qed.

(* ================================================================== *)
(** ** More on the validators *)
(* ================================================================== *)

Section validators_more.
Implicit Types (boards : list Board.t) (blocks : list Block.t)
  (ps : list (option Board.t)) (qs : list (option Block.t)) (m : gmap string bool).

Lemma ValidateCreateBatch_None boards blocks :
  ValidateCreateBatch boards blocks = None
  ↔ boards ≠ [] ∧ blocks ≠ [] ∧ Forall (λ x, ¬ orphan boards x) blocks.
Proof.
  destruct boards as [|bd boards]; [by split; [|intros [? _]]|].
  destruct blocks as [|b blocks]; [by split; [|intros (_ & ? & _)]|].
  unfold ValidateCreateBatch. rewrite fmap_None, first_orphan_None.
  split; [intros ?; by repeat split | by intros (_ & _ & ?)].
Qed.

(** X19. A valid create batch stays valid when boards are added, repeated
    or reordered, and when blocks are removed or reordered as long as one
    block is left: validity looks only at which board IDs occur. *)
Theorem create_batch_validity_monotone boards boards' blocks blocks'
    (sent sent' : list http_Request.t) :
  (call BoardsAndBlocks_IsValid (batch_of boards blocks) sent).1 = Returns None →
  (∀ id, id ∈ Board.ID <$> boards → id ∈ Board.ID <$> boards') →
  blocks' ≠ [] →
  (∀ b, b ∈ blocks' → b ∈ blocks) →
  (call BoardsAndBlocks_IsValid (batch_of boards' blocks') sent').1 = Returns None.
Proof.
  rewrite !BoardsAndBlocks_IsValid_refines. intros [= Hvalid] Hboards Hne Hblocks.
  f_equal. apply ValidateCreateBatch_None in Hvalid as (_ & _ & Hall).
  apply ValidateCreateBatch_None. rewrite Forall_forall in Hall.
  assert (Forall (λ x, ¬ orphan boards' x) blocks') as Hall'.
  { apply Forall_forall. intros b Hb Horphan. apply (Hall b (Hblocks b Hb)).
    intros Hin. by apply Horphan, Hboards. }
  split; [|done].
  destruct blocks' as [|b blocks']; [done|].
  apply Forall_cons_1 in Hall' as [Hb _]. intros ->. apply Hb. unfold orphan.
  simpl. apply not_elem_of_nil.
Qed.

Lemma create_batch_validity_monotone_witness :
  ((call BoardsAndBlocks_IsValid
         (batch_of [Board.mk "A" "team"]
                   [Block.mk "x" "A" TypeCard; Block.mk "y" "A" TypeText]) []).1
   = Returns None
   ∧ (∀ id, id ∈ Board.ID <$> [Board.mk "A" "team"] →
            id ∈ Board.ID <$> [Board.mk "B" "team"; Board.mk "A" "other"; Board.mk "A" "team"])
   ∧ [Block.mk "y" "A" TypeText] ≠ []
   ∧ (∀ b, b ∈ [Block.mk "y" "A" TypeText] →
           b ∈ [Block.mk "x" "A" TypeCard; Block.mk "y" "A" TypeText]))
  ∧ (call BoardsAndBlocks_IsValid
          (batch_of [Board.mk "B" "team"; Board.mk "A" "other"; Board.mk "A" "team"]
                    [Block.mk "y" "A" TypeText]) []).1
    = Returns None.
Proof.
  assert (∀ id, id ∈ Board.ID <$> [Board.mk "A" "team"] →
                id ∈ Board.ID <$> [Board.mk "B" "team"; Board.mk "A" "other";
                                   Board.mk "A" "team"]) as Hboards.
  { simpl. intros id Hid. apply list_elem_of_singleton in Hid as ->.
    apply elem_of_cons. right. apply elem_of_cons. by left. }
  assert (∀ b, b ∈ [Block.mk "y" "A" TypeText] →
               b ∈ [Block.mk "x" "A" TypeCard; Block.mk "y" "A" TypeText]) as Hblocks.
  { intros b Hb. apply elem_of_cons. by right. }
  split; [split; [vm_compute; reflexivity | split; [exact Hboards | split; [discriminate | exact Hblocks]]]|].
  apply (create_batch_validity_monotone [Board.mk "A" "team"] _
           [Block.mk "x" "A" TypeCard; Block.mk "y" "A" TypeText] _ [] []);
    [vm_compute; reflexivity | exact Hboards | discriminate | exact Hblocks].
Defined.

(** The first loop panics exactly on a nil board. *)
Lemma register_boards_Panics ps m : register_boards ps m = Panics ↔ None ∈ ps.
Proof.
  revert m. induction ps as [|[bd|] ps IH]; intros m; simpl.
  - split; [done | by intros ?%elem_of_nil].
  - rewrite IH, elem_of_cons. split; [by right | by intros [?|?]].
  - split; [intros _; by left | done].
Qed.

Lemma no_nil_boards ps : None ∉ ps → ps = Some <$> boards_behind ps.
Proof.
  unfold boards_behind. induction ps as [|[bd|] ps IH]; intros Hnil; [done| |].
  - simpl. f_equal. apply IH. intros Hin. apply Hnil. by right.
  - exfalso. apply Hnil. by left.
Qed.

(** The second loop panics exactly on a nil block that no orphan precedes. *)
Lemma check_blocks_Panics boards qs m :
  (∀ k, is_Some (m !! k) ↔ k ∈ Board.ID <$> boards) →
  check_blocks m qs = Panics
  ↔ ∃ pre post, qs = pre ++ None :: post
                ∧ Forall (λ p, ∃ b, p = Some b ∧ ¬ orphan boards b) pre.
Proof.
  intros Hm. induction qs as [|[b|] qs IH]; simpl.
  - split; [done|]. intros (pre & post & Heq & _). by destruct pre.
  - destruct (m !! Block.BoardID b) as [v|] eqn:E.
    + rewrite IH. split.
      * intros (pre & post & -> & Hpre). exists (Some b :: pre), post. split; [done|].
        constructor; [|done]. exists b. split; [done|].
        intros Ho. apply Ho, Hm. by rewrite E.
      * intros (pre & post & Heq & Hpre). destruct pre as [|p pre]; [done|].
        injection Heq as <- ->. apply Forall_cons_1 in Hpre as [_ Hpre]. by exists pre, post.
    + split; [done|]. intros (pre & post & Heq & Hpre). destruct pre as [|p pre]; [done|].
      injection Heq as <- ->. apply Forall_cons_1 in Hpre as [(b' & [= <-] & Hb) _].
      exfalso. apply Hb. intros Hin. apply Hm in Hin. rewrite E in Hin. by destruct Hin.
  - split; [|done]. intros _. exists [], qs. by split.
Qed.

(** X18. On a create batch whose slices may hold nil pointers, [IsValid]
    panics exactly when both slices are non-empty and either some board
    pointer is nil, or a block pointer is nil and every block before it
    points to a block that belongs to a board of the batch. *)
Theorem BoardsAndBlocks_IsValid_panics (bab : BoardsAndBlocks.t) (sent : list http_Request.t) :
  (call BoardsAndBlocks_IsValid bab sent).1 = Panics
  ↔ BoardsAndBlocks.Boards bab ≠ []
    ∧ BoardsAndBlocks.Blocks bab ≠ []
    ∧ (None ∈ BoardsAndBlocks.Boards bab
       ∨ ∃ pre post,
           BoardsAndBlocks.Blocks bab = pre ++ None :: post
           ∧ Forall (λ p, ∃ b, p = Some b
                               ∧ ¬ orphan (boards_behind (BoardsAndBlocks.Boards bab)) b) pre).
Proof.
  destruct bab as [ps qs]. simpl.
  unfold call, BoardsAndBlocks_IsValid, mbind, M_bind, receiver, lift, mret, M_ret. simpl.
  destruct ps as [|p ps]; [by split; [|intros [? _]]|].
  destruct qs as [|q qs]; [by split; [|intros (_ & ? & _)]|].
  rewrite !bool_decide_eq_false_2 by done.
  destruct (register_boards (p :: ps) ∅) as [m|] eqn:E.
  - assert (None ∉ p :: ps) as Hnil.
    { intros Hin. apply (register_boards_Panics _ ∅) in Hin. congruence. }
    pose proof (no_nil_boards _ Hnil) as Hps.
    destruct (register_boards_keys (boards_behind (p :: ps)) ∅) as (m' & Hm' & Hk).
    rewrite <- Hps, E in Hm'. injection Hm' as <-.
    assert (∀ k, is_Some (m !! k) ↔ k ∈ Board.ID <$> boards_behind (p :: ps)) as Hkeys.
    { intros k. rewrite Hk, lookup_empty. split; [intros [[? [=]]|?]; done | by right]. }
    destruct (check_blocks m (q :: qs)) as [res|] eqn:Ec; simpl.
    + split; [done|]. intros (_ & _ & [Hin | Hex]); [done|].
      apply (check_blocks_Panics _ _ _ Hkeys) in Hex. congruence.
    + split; [|done]. intros _. split; [done|]. split; [done|]. right.
      by apply (check_blocks_Panics _ _ _ Hkeys).
  - simpl. split; [|done]. intros _. split; [done|]. split; [done|]. left.
    by apply (register_boards_Panics _ ∅).
Qed.

(** X20. The patch validator looks at four lengths and nothing else: its
    answer is one function of the lengths of [BoardIDs], [BoardPatches],
    [BlockIDs] and [BlockPatches], whatever the IDs and the patches are
    (repeated or empty IDs and nil patches included). *)
Theorem PatchBoardsAndBlocks_IsValid_lengths_only :
  ∃ verdict : nat → nat → nat → nat → option error,
    ∀ (BoardPatch BlockPatch : Type)
      (dbab : PatchBoardsAndBlocks.t BoardPatch BlockPatch) (sent : list http_Request.t),
      (call PatchBoardsAndBlocks_IsValid dbab sent).1
      = Returns (verdict (length (PatchBoardsAndBlocks.BoardIDs dbab))
                         (length (PatchBoardsAndBlocks.BoardPatches dbab))
                         (length (PatchBoardsAndBlocks.BlockIDs dbab))
                         (length (PatchBoardsAndBlocks.BlockPatches dbab))).
Proof.
  exists (λ n1 n2 n3 n4,
            if bool_decide (n1 = 0%nat) then Some ErrNoBoardsInBoardsAndBlocks
            else if bool_decide (n1 ≠ n2)
                 then Some ErrBoardIDsAndPatchesMissmatchInBoardsAndBlocks
                 else if bool_decide (n3 ≠ n4)
                      then Some ErrBlockIDsAndPatchesMissmatchInBoardsAndBlocks
                      else None).
  intros BoardPatch BlockPatch dbab sent.
  unfold call, PatchBoardsAndBlocks_IsValid, mbind, M_bind, receiver, mret, M_ret. simpl.
  by repeat destruct (bool_decide _).
Qed.

End validators_more.

(* ================================================================== *)
(** ** More on block types *)
(* ================================================================== *)

(** X15. [BlockTypeFromString] matches without regard to case and answers
    with the lower-case name: when the lower-case form of [s] is one of the
    nine names, the result is that name and a nil error; otherwise it is
    [TypeUnknown] and an error that holds [s] as it was written. *)
Theorem BlockTypeFromString_cases `{GoLib} (s : string) :
  (strings_ToLower s ∈ block_type_names
   ∧ BlockTypeFromString s = (strings_ToLower s, None))
  ∨ ((strings_ToLower s ∉ block_type_names)
     ∧ BlockTypeFromString s = (TypeUnknown, Some (ErrInvalidBlockType s))).
Proof.
  unfold BlockTypeFromString, block_type_names. simpl.
  repeat match goal with
         | |- context [String.eqb ?a ?b] =>
             destruct (String.eqb_spec a b) as [Heq|?];
             [rewrite Heq; left; split; [repeat constructor | reflexivity] |]
         end.
  right. split; [|reflexivity].
  intros Hin. repeat (apply elem_of_cons in Hin as [?|Hin]; [done|]).
  by apply elem_of_nil in Hin.
Qed.

(** X16. When lower-casing leaves the ten constant names as they are (as
    it does in Go), each of the nine block types is read back from its
    [String()] with a nil error, and [TypeUnknown] is not: its own name is
    refused. *)
Theorem BlockType_String_round_trip `{GoLib} :
  (∀ name, name ∈ TypeUnknown :: block_type_names → strings_ToLower name = name) →
  (∀ bt, bt ∈ [TypeBoard; TypeCard; TypeView; TypeText; TypeCheckbox; TypeComment;
               TypeImage; TypeAttachment; TypeDivider] →
         BlockTypeFromString (BlockType_String bt) = (bt, None))
  ∧ BlockTypeFromString (BlockType_String TypeUnknown)
    = (TypeUnknown, Some (ErrInvalidBlockType "unknown")).
Proof.
  intros Hlower. split.
  - intros bt Hbt. unfold BlockTypeFromString, BlockType_String.
    rewrite Hlower by (by right).
    repeat (apply elem_of_cons in Hbt as [->|Hbt]; [reflexivity|]).
    by apply elem_of_nil in Hbt.
  - unfold BlockTypeFromString, BlockType_String. rewrite Hlower by (by left).
    reflexivity.
Qed.

Lemma BlockType_String_round_trip_witness :
  (∀ name, name ∈ TypeUnknown :: block_type_names → ToLower_ascii name = name)
  ∧ BlockTypeFromString (H := example_lib) (BlockType_String TypeCheckbox)
    = (TypeCheckbox, None).
Proof.
  assert (∀ name, name ∈ TypeUnknown :: block_type_names → ToLower_ascii name = name)
    as Hlower.
  { intros name Hin. repeat (apply elem_of_cons in Hin as [->|Hin]; [reflexivity|]).
    by apply elem_of_nil in Hin. }
  split; [exact Hlower|].
  apply (BlockType_String_round_trip (H := example_lib) Hlower).
  repeat (first [by left | right]).
Defined.

Lemma errors_As_chain_elem_of (e : error) (T : GoType) :
  is_Some (errors_As_chain e T) ↔ ∃ e', e' ∈ unwrap_chain e ∧ typeOf e' = T.
Proof.
  induction e as [s|id|t|t|buf|msg inner IH|msg]; simpl;
    try (destruct (decide _) as [Heq|Hne];
         [ split; [intros _; eexists; split; [by left | done] | by eexists]
         | split; [by intros [? ?] |];
           intros (e' & Hin & Hty); apply list_elem_of_singleton in Hin as ->; done ]).
  destruct (decide _) as [Heq|Hne].
  - split; [intros _; eexists; split; [by left | done] | by eexists].
  - rewrite IH. split.
    + intros (e' & Hin & Hty). exists e'. split; [by right | done].
    + intros (e' & Hin & Hty). apply elem_of_cons in Hin as [-> | Hin]; [done|].
      by exists e'.
Qed.

(** X17. [IsErrInvalidBlockType] answers true exactly on the errors that
    are, or wrap at some depth, a pointer to an [ErrInvalidBlockType]; on
    nil, and on a chain that holds the struct only by value, it answers
    false. *)
Theorem IsErrInvalidBlockType_pointer_in_chain (err : option error) :
  IsErrInvalidBlockType err = true
  ↔ ∃ e t, err = Some e ∧ ptr_ErrInvalidBlockType t ∈ unwrap_chain e.
Proof.
  unfold IsErrInvalidBlockType, errors_As. destruct err as [e|].
  - rewrite bool_decide_eq_true, errors_As_chain_elem_of. split.
    + intros (e' & Hin & Hty). destruct e'; try done. by eexists _, _.
    + intros (e0 & t & [= <-] & Hin). by eexists.
  - split; [done | by intros (? & ? & ? & _)].
Qed.

(* ================================================================== *)
(** ** Releasing a response *)
(* ================================================================== *)

(** X21. [closeBody] leaves the status code and the headers alone; a
    response without a body it leaves as it is, and a body it leaves
    drained and closed, so that a second [closeBody] changes nothing more.
    On a nil response it panics. *)
Theorem closeBody_idempotent :
  closeBody None = Panics
  ∧ ∀ r : http_Response.t,
      ∃ r', closeBody (Some r) = Returns r'
            ∧ http_Response.StatusCode r' = http_Response.StatusCode r
            ∧ http_Response.Header r' = http_Response.Header r
            ∧ http_Response.Body r'
              = (λ s, Stream.mk [] (Stream.fault s) true) <$> http_Response.Body r
            ∧ closeBody (Some r') = Returns r'.
Proof.
  split; [done|]. intros [code header [body|]]; simpl.
  - eexists. split; [reflexivity|]. by repeat split.
  - eexists. split; [reflexivity|]. by repeat split.
Qed.

(* ================================================================== *)
(** ** The base URL and the routes *)
(* ================================================================== *)

Lemma string_app_cons (x : ascii) (a b : string) :
  String x a +:+ b = String x (a +:+ b).
Proof. reflexivity. Qed.

Lemma string_app_nil_l (a : string) : "" +:+ a = a.
Proof. reflexivity. Qed.

Lemma string_app_assoc (a b c : string) : (a +:+ b) +:+ c = a +:+ (b +:+ c).
Proof.
  induction a as [|x a IH]; [done|]. rewrite !string_app_cons. f_equal. exact IH.
Qed.

Lemma string_app_inv_head (a x y : string) : a +:+ x = a +:+ y → x = y.
Proof.
  induction a as [|c a IH]; [done|]. rewrite !string_app_cons. intros [= ?]. by apply IH.
Qed.

Lemma TrimRight_slash_cons (c : ascii) (s : string) :
  strings_TrimRight (String c s) "/"
  = match strings_TrimRight s "/" with
    | EmptyString => if Ascii.eqb c "/" then EmptyString else String c EmptyString
    | t => String c t
    end.
Proof.
  simpl. destruct (strings_TrimRight s "/"); [|done].
  destruct (Ascii.eqb_spec c "/") as [->|Hne].
  - by rewrite bool_decide_eq_true_2 by (by left).
  - rewrite bool_decide_eq_false_2; [done|].
    by intros ?%list_elem_of_singleton.
Qed.

(** What [strings.TrimRight(s, "/")] cuts off is a run of slashes. *)
Lemma TrimRight_slash_decompose (s : string) :
  ∃ n, s = strings_TrimRight s "/" +:+ slashes n.
Proof.
  induction s as [|c s [n IH]]; [by exists 0%nat|].
  rewrite TrimRight_slash_cons.
  destruct (strings_TrimRight s "/") as [|c' t] eqn:E.
  - rewrite string_app_nil_l in IH. destruct (Ascii.eqb_spec c "/") as [->|Hne].
    + exists (S n). rewrite string_app_nil_l. simpl. by rewrite <- IH.
    + exists n. rewrite string_app_cons, string_app_nil_l. by rewrite <- IH.
  - exists n. rewrite string_app_cons. f_equal. exact IH.
Qed.

(** What it leaves does not end in a slash. *)
Lemma TrimRight_slash_no_trailing (s t : string) :
  strings_TrimRight s "/" ≠ t +:+ "/".
Proof.
  revert t. induction s as [|c s IH]; intros t.
  - simpl. by destruct t.
  - rewrite TrimRight_slash_cons.
    destruct (strings_TrimRight s "/") as [|c' u] eqn:E.
    + destruct (Ascii.eqb_spec c "/") as [->|Hne]; [by destruct t|].
      destruct t as [|x t]; [rewrite string_app_nil_l; congruence|].
      rewrite string_app_cons. intros [= -> Ht]. by destruct t.
    + destruct t as [|x t]; [by rewrite string_app_nil_l|].
      rewrite string_app_cons. intros [= -> Ht]. by apply (IH t).
Qed.

(** A string that does not end in a slash is left whole. *)
Lemma TrimRight_slash_fixed (s : string) :
  (∀ t, s ≠ t +:+ "/") → strings_TrimRight s "/" = s.
Proof.
  induction s as [|c s IH]; intros Hs; [done|].
  rewrite TrimRight_slash_cons.
  destruct s as [|c' s].
  - simpl. destruct (Ascii.eqb_spec c "/") as [->|Hne]; [|done].
    exfalso. by apply (Hs "").
  - rewrite IH; [done|]. intros t Ht. apply (Hs (String c t)).
    rewrite string_app_cons. by rewrite Ht.
Qed.

(** X6. [NewClient] strips every trailing slash of the URL and nothing
    else: the given URL is the client's [URL] followed by slashes only, the
    [URL] does not end in a slash, and making a client from that [URL]
    again gives the same [URL].  [APIURL] is [URL] followed by /api/v2, the
    token is kept as given, and the only header is X-Requested-With with
    the value XMLHttpRequest. *)
Theorem NewClient_normalises_url `{GoLib} (url sessionToken : string) :
  let c := NewClient url sessionToken in
  (∃ n, url = Client.URL c +:+ slashes n)
  ∧ (∀ t, Client.URL c ≠ t +:+ "/")
  ∧ Client.URL (NewClient (Client.URL c) sessionToken) = Client.URL c
  ∧ Client.APIURL c = Client.URL c +:+ "/api/v2"
  ∧ Client.Token c = sessionToken
  ∧ Client.HTTPHeader c = Some {[ "X-Requested-With" := "XMLHttpRequest" ]}
  ∧ Client.HTTPClient c = Some network.
Proof.
  simpl. split; [apply TrimRight_slash_decompose|].
  split; [apply TrimRight_slash_no_trailing|].
  split; [|done]. apply TrimRight_slash_fixed, TrimRight_slash_no_trailing.
Qed.

(** A slash-free string followed by a slash is cut at that slash. *)
Lemma slash_free_split (a b x y : string) :
  slash_free a = true → slash_free b = true →
  a +:+ String "/" x = b +:+ String "/" y → a = b ∧ x = y.
Proof.
  revert b. induction a as [|c a IH]; intros [|d b] Ha Hb Heq;
    rewrite ?string_app_cons, ?string_app_nil_l in Heq; simpl in Ha, Hb.
  - by injection Heq.
  - injection Heq as <- _. by rewrite Ascii.eqb_refl in Hb.
  - injection Heq as -> _. by rewrite Ascii.eqb_refl in Ha.
  - injection Heq as -> Heq. apply andb_prop in Ha as [_ Ha], Hb as [_ Hb].
    destruct (IH b Ha Hb Heq) as [-> ->]. done.
Qed.

(** X14. The IDs go into the routes as they are, with no escaping.  For
    board IDs without a slash, the block route tells the board and the
    block apart: two block routes are equal only for the same board ID and
    the same block ID.  With a slash in the board ID two different pairs
    share a route. *)
Theorem GetBlockRoute_injective :
  (∀ boardID boardID' blockID blockID',
     slash_free boardID = true → slash_free boardID' = true →
     GetBlockRoute boardID blockID = GetBlockRoute boardID' blockID' →
     boardID = boardID' ∧ blockID = blockID')
  ∧ GetBlockRoute "a/blocks/b" "c" = GetBlockRoute "a" "b/blocks/c".
Proof.
  split; [|reflexivity].
  intros b b' k k' Hb Hb' Heq.
  unfold GetBlockRoute, GetBlocksRoute, GetBoardRoute, GetBoardsRoute in Heq.
  rewrite !string_app_assoc in Heq. apply string_app_inv_head in Heq.
  rewrite !string_app_cons, !string_app_nil_l in Heq. injection Heq as Heq.
  apply (slash_free_split b b') in Heq as [-> Heq]; [|done..].
  split; [done|]. by injection Heq.
Qed.

(* ================================================================== *)
(** ** More on the transport *)
(* ================================================================== *)

Section transport_more.
Context `{GoLib}.
Implicit Types (c : Client.t) (rq : http_Request.t) (rp : http_Response.t)
  (sent : list http_Request.t) (opts : list requestOption).

Lemma range_order_empty (hm : gmap string string) : size hm = 0%nat → range_order hm = [].
Proof.
  intros ->%map_size_empty_inv. apply Permutation_nil_r.
  rewrite (range_order_perm ∅). by rewrite map_to_list_empty.
Qed.

(** Without options the request is always built once [http.NewRequest]
    accepts the method and the URL. *)
Lemma request_built_without_options c (method url : string) (data : Stream.t) :
  let method' := if String.eqb method "" then "GET" else method in
  NewRequest_check method' url = None →
  doAPIRequestReader_request c method url data []
  = Returns (inl (http_Request.mk method' url (Some (client_headers c)) data)).
Proof.
  intros method' Hcheck.
  unfold doAPIRequestReader_request, http_NewRequest. fold method'. rewrite Hcheck.
  unfold mbind, outcome_mbind, client_headers. simpl.
  assert (match Client.HTTPHeader c with
          | Some m =>
              if bool_decide (0 < size m)%nat
              then set_headers (range_order m) (Some ∅)
              else Returns (Some ∅)
          | None => Returns (Some ∅)
          end
          = Returns (Some match Client.HTTPHeader c with
                          | Some hm => set_all (range_order hm) ∅
                          | None => ∅
                          end)) as ->.
  { destruct (Client.HTTPHeader c) as [hm|]; [|done].
    case_bool_decide as Hsize; [apply set_headers_Some|].
    rewrite range_order_empty by lia. done. }
  simpl. by case_bool_decide.
Qed.

(** X5. Without options, and when [http.NewRequest] accepts the method and
    the URL, the request is always built, and it is exactly this: the
    method (GET for an empty one), the URL and the body as given, and a
    header map that holds the headers of the client and the bearer token
    and nothing else.  The etag argument goes nowhere: the call does the
    same for every etag. *)
Theorem request_without_options c (method url : string) (data : Stream.t) :
  let method' := if String.eqb method "" then "GET" else method in
  NewRequest_check method' url = None →
  doAPIRequestReader_request c method url data []
  = Returns (inl (http_Request.mk method' url (Some (client_headers c)) data))
  ∧ ∀ etag etag' sent,
      call (doAPIRequestReader method url data etag []) c sent
      = call (doAPIRequestReader method url data etag' []) c sent.
Proof.
  intros method' Hcheck. split; [|done]. by apply request_built_without_options.
Qed.

(** A request built without options is the one
    [request_built_without_options] describes. *)
Lemma request_without_options_inv c (method url : string) (data : Stream.t) rq :
  doAPIRequestReader_request c method url data [] = Returns (inl rq) →
  rq = http_Request.mk (if String.eqb method "" then "GET" else method) url
                       (Some (client_headers c)) data.
Proof.
  intros Hrq.
  destruct (NewRequest_check (if String.eqb method "" then "GET" else method) url)
    as [err|] eqn:Hcheck.
  - unfold doAPIRequestReader_request, http_NewRequest in Hrq. by rewrite Hcheck in Hrq.
  - rewrite (request_built_without_options c method url data Hcheck) in Hrq.
    by injection Hrq.
Qed.

(** The world after a call: the same client, and at most one request
    more on the wire. *)
Lemma doAPIRequestReader_world c sent (method url : string) (data : Stream.t)
    (etag : string) opts :
  let after := (call (doAPIRequestReader method url data etag opts) c sent).2 in
  this after = c
  ∧ (wire after = sent
     ∨ ∃ rq, doAPIRequestReader_request c method url data opts = Returns (inl rq)
             ∧ wire after = sent ++ [rq]).
Proof.
  unfold call, doAPIRequestReader, mbind, M_bind, receiver, lift, send, mret, M_ret. simpl.
  destruct (doAPIRequestReader_request c method url data opts) as [[rq|err]|];
    simpl; [|by split; [|left]..].
  destruct (Client.HTTPClient c) as [Do|]; simpl; [|by split; [|left]].
  destruct (Do rq) as [rp err]. simpl.
  destruct (doAPIRequestReader_result rp err); (split; [done|]; right; by exists rq).
Qed.

(** X4. A call of [doAPIRequestReader] leaves the client as it was and
    hands at most one request to the network, whatever the outcome (an
    error, a panic, any status): nothing is retried, and the request that
    goes out is the one built from the arguments. *)
Theorem doAPIRequestReader_sends_at_most_once c sent (method url : string) (data : Stream.t)
    (etag : string) opts :
  let after := (call (doAPIRequestReader method url data etag opts) c sent).2 in
  this after = c
  ∧ (wire after = sent
     ∨ ∃ rq, doAPIRequestReader_request c method url data opts = Returns (inl rq)
             ∧ wire after = sent ++ [rq]).
Proof. apply doAPIRequestReader_world. Qed.

(** X3. When [http.NewRequest] refuses the method or the URL, the call
    returns its error with a nil response, and nothing goes to the
    network. *)
Theorem refused_request_is_not_sent c sent (method url : string) (data : Stream.t)
    (etag : string) opts (err : error) :
  http_NewRequest method url data = inr err →
  call (doAPIRequestReader method url data etag opts) c sent
  = (Returns (None, Some err), mkWorld c sent).
Proof.
  intros Hnew.
  unfold call, doAPIRequestReader, doAPIRequestReader_request,
    mbind, M_bind, receiver, lift, mret, M_ret. simpl.
  by rewrite Hnew.
Qed.

Lemma doAPIRequestReader_result_ok rp :
  http_Response.StatusCode rp < StatusMultipleChoices
  ∨ http_Response.StatusCode rp = StatusNotModified →
  doAPIRequestReader_result (Some rp) None = Returns (Some rp, None).
Proof.
  intros Hcode. unfold doAPIRequestReader_result.
  case_bool_decide; [done|]. rewrite bool_decide_eq_false_2; [done|].
  destruct Hcode as [?|?]; [lia | done].
Qed.

Lemma doAPIRequestReader_result_error_status rp body :
  StatusMultipleChoices ≤ http_Response.StatusCode rp →
  http_Response.StatusCode rp ≠ StatusNotModified →
  http_Response.Body rp = Some body →
  Stream.fault body = None →
  doAPIRequestReader_result (Some rp) None
  = Returns (Some (http_Response.mk (http_Response.StatusCode rp) (http_Response.Header rp)
                                    (Some (Stream.mk [] None true))),
             Some (RequestReaderError (Stream.pending body))).
Proof.
  intros Hge Hne Hbody Hfault. unfold doAPIRequestReader_result.
  rewrite bool_decide_eq_false_2, bool_decide_eq_true_2 by done.
  rewrite Hbody. simpl. unfold drain_and_close. simpl. by rewrite Hfault.
Qed.

Lemma doAPIRequestReader_result_failure (rp : option http_Response.t) (e : error) :
  doAPIRequestReader_result rp (Some e) = Returns (None, Some e).
Proof. by destruct rp. Qed.

(** X1. When the HTTP client answers the request with a response whose
    status is below 300 and no error, the call returns that response with a
    nil error, exactly as it arrived: the body is neither read nor closed,
    and it is the caller who must close it.  Every status below 300 counts,
    1xx and codes that HTTP does not know included. *)
Theorem status_below_300_returned_untouched c sent (method url : string) (data : Stream.t)
    (etag : string) opts rq Do rp :
  doAPIRequestReader_request c method url data opts = Returns (inl rq) →
  Client.HTTPClient c = Some Do →
  Do rq = (Some rp, None) →
  http_Response.StatusCode rp < StatusMultipleChoices →
  call (doAPIRequestReader method url data etag opts) c sent
  = (Returns (Some rp, None), mkWorld c (sent ++ [rq])).
Proof.
  intros Hrq HDo Hanswer Hcode.
  rewrite (doAPIRequestReader_run _ _ _ _ _ _ _ _ _ Hrq HDo), Hanswer. cbn [fst snd].
  rewrite doAPIRequestReader_result_ok; [done | by left].
Qed.

(** X2. When the status is 300 or above, other than 304, and reading the
    body fails, the call returns the response with its status code and
    headers and its body closed, and an error that wraps the read error:
    [errors.Unwrap] gives the read error back, and the message names the
    status code and the read error.  The bytes read before the failure are
    lost. *)
Theorem error_status_read_failure_wrapped c sent (method url : string) (data : Stream.t)
    (etag : string) opts rq Do rp body (e : error) :
  doAPIRequestReader_request c method url data opts = Returns (inl rq) →
  Client.HTTPClient c = Some Do →
  Do rq = (Some rp, None) →
  StatusMultipleChoices ≤ http_Response.StatusCode rp →
  http_Response.StatusCode rp ≠ StatusNotModified →
  http_Response.Body rp = Some body →
  Stream.fault body = Some e →
  ∃ err,
    (call (doAPIRequestReader method url data etag opts) c sent).1
    = Returns (Some (http_Response.mk (http_Response.StatusCode rp) (http_Response.Header rp)
                                      (Some (Stream.mk [] (Some e) true))),
               Some err)
    ∧ errors_Unwrap err = Some e
    ∧ error_Error err
      = "error when parsing response with code " +:+ fmt_d (http_Response.StatusCode rp)
        +:+ ": " +:+ error_Error e
    ∧ typeOf err ≠ T_RequestReaderError.
Proof.
  intros Hrq HDo Hanswer Hge Hne Hbody Hfault.
  rewrite (doAPIRequestReader_run _ _ _ _ _ _ _ _ _ Hrq HDo), Hanswer. cbn [fst snd].
  rewrite (doAPIRequestReader_result_read_error rp body e) by done.
  eexists. split; [reflexivity|]. by repeat split.
Qed.

End transport_more.

(* ================================================================== *)
(** ** The API calls *)
(* ================================================================== *)

Section api_calls.
Context `{GoLib} `{Codec}.
Implicit Types (c : Client.t) (rq : http_Request.t) (rp : http_Response.t)
  (sent : list http_Request.t).

Lemma DoAPIRequest_answers c sent (method url data etag : string) rq
    (rp : option http_Response.t) (err : option error) :
  answers c method url data rq rp err →
  DoAPIRequest method url data etag (mkWorld c sent)
  = (doAPIRequestReader_result rp err, mkWorld c (sent ++ [rq])).
Proof.
  intros (Hrq & Do & HDo & Hanswer). unfold DoAPIRequest.
  pose proof (doAPIRequestReader_run c sent method url (strings_NewReader data) etag []
                rq Do Hrq HDo) as Hrun.
  unfold call in Hrun. by rewrite Hrun, Hanswer.
Qed.

(** The world after a request without options: the client is as before. *)
Lemma DoAPIRequest_world c sent (method url data etag : string) :
  let after := (DoAPIRequest method url data etag (mkWorld c sent)).2 in
  this after = c
  ∧ (wire after = sent
     ∨ wire after
       = sent ++ [http_Request.mk (if String.eqb method "" then "GET" else method) url
                                  (Some (client_headers c)) (strings_NewReader data)]).
Proof.
  destruct (doAPIRequestReader_world c sent method url
              (strings_NewReader data) etag []) as [Hthis Hwire].
  unfold call in *. split; [exact Hthis|].
  destruct Hwire as [?|(rq & Hrq & Hwire)]; [by left|]. right.
  by rewrite <- (request_without_options_inv _ _ _ _ _ Hrq).
Qed.

(** X7. [DeleteBoard] on an error status: when the server answers the
    DELETE of /boards/ID with a status of 300 or above, other than 304, and
    a body that reads to its end, the call returns false and a [Response]
    with that status code, those headers, and the error
    [RequestReaderError] holding the bytes of the body. *)
Theorem DeleteBoard_error_status c sent (boardID : string) rq rp body :
  answers c "DELETE" (Client.APIURL c +:+ GetBoardRoute boardID) "" rq (Some rp) None →
  StatusMultipleChoices ≤ http_Response.StatusCode rp →
  http_Response.StatusCode rp ≠ StatusNotModified →
  http_Response.Body rp = Some body →
  Stream.fault body = None →
  call (DeleteBoard boardID) c sent
  = (Returns (false,
              Response.mk (http_Response.StatusCode rp)
                          (Some (RequestReaderError (Stream.pending body)))
                          (http_Response.Header rp)),
     mkWorld c (sent ++ [rq])).
Proof.
  intros Hanswers Hge Hne Hbody Hfault.
  unfold call, DeleteBoard, DoAPIDelete, mbind, M_bind, receiver. cbn [this].
  rewrite (DoAPIRequest_answers _ _ _ _ _ _ _ _ _ Hanswers).
  by rewrite (doAPIRequestReader_result_error_status rp body).
Qed.

(** X8. [DeleteBoard] on success: when the server answers with a status
    below 300, or with 304, the call returns true and a [Response] with
    that status code, those headers and a nil error. *)
Theorem DeleteBoard_success c sent (boardID : string) rq rp :
  answers c "DELETE" (Client.APIURL c +:+ GetBoardRoute boardID) "" rq (Some rp) None →
  http_Response.StatusCode rp < StatusMultipleChoices
  ∨ http_Response.StatusCode rp = StatusNotModified →
  call (DeleteBoard boardID) c sent
  = (Returns (true,
              Response.mk (http_Response.StatusCode rp) None (http_Response.Header rp)),
     mkWorld c (sent ++ [rq])).
Proof.
  intros Hanswers Hcode.
  unfold call, DeleteBoard, DoAPIDelete, mbind, M_bind, receiver. cbn [this].
  rewrite (DoAPIRequest_answers _ _ _ _ _ _ _ _ _ Hanswers).
  by rewrite (doAPIRequestReader_result_ok rp).
Qed.

(** X9. [DeleteBoard] when the HTTP client fails: the call returns false
    and a [Response] with status code 0, an empty header map that is not
    nil, and the error of the HTTP client.  A response that came with the
    error is dropped, its status code with it. *)
Theorem DeleteBoard_transport_failure c sent (boardID : string) rq
    (rp : option http_Response.t) (e : error) :
  answers c "DELETE" (Client.APIURL c +:+ GetBoardRoute boardID) "" rq rp (Some e) →
  call (DeleteBoard boardID) c sent
  = (Returns (false, Response.mk 0 (Some e) (Some ∅)), mkWorld c (sent ++ [rq])).
Proof.
  intros Hanswers.
  unfold call, DeleteBoard, DoAPIDelete, mbind, M_bind, receiver. cbn [this].
  rewrite (DoAPIRequest_answers _ _ _ _ _ _ _ _ _ Hanswers).
  by rewrite doAPIRequestReader_result_failure.
Qed.

(** X10. [ExportBoardArchive] when the server answers the GET of
    /boards/ID/archive/export with a status below 300, or with 304: if the
    body reads to its end, the call returns exactly its bytes and a
    [Response] with the status code, the headers and a nil error; if
    reading fails, it returns nil bytes and a [Response] that has the read
    error next to the status code of the success. *)
Theorem ExportBoardArchive_body c sent (boardID : string) rq rp body :
  answers c "GET" (Client.APIURL c +:+ GetBoardRoute boardID +:+ "/archive/export") ""
          rq (Some rp) None →
  http_Response.StatusCode rp < StatusMultipleChoices
  ∨ http_Response.StatusCode rp = StatusNotModified →
  http_Response.Body rp = Some body →
  call (ExportBoardArchive boardID) c sent
  = (Returns match Stream.fault body with
             | None =>
                 (Some (Stream.pending body),
                  Response.mk (http_Response.StatusCode rp) None (http_Response.Header rp))
             | Some e =>
                 (None,
                  Response.mk (http_Response.StatusCode rp) (Some e) (http_Response.Header rp))
             end,
     mkWorld c (sent ++ [rq])).
Proof.
  intros Hanswers Hcode Hbody.
  unfold call, ExportBoardArchive, DoAPIGet, mbind, M_bind, receiver. cbn [this].
  rewrite (DoAPIRequest_answers _ _ _ _ _ _ _ _ _ Hanswers).
  rewrite (doAPIRequestReader_result_ok rp) by done.
  unfold lift. simpl. rewrite Hbody. simpl. by destruct (Stream.fault body).
Qed.

(** The API calls touch the world only through their request. *)
Lemma JoinBoard_world c sent (boardID : string) :
  (call (JoinBoard boardID) c sent).2
  = (DoAPIRequest "POST" (Client.APIURL c +:+ GetJoinBoardRoute boardID) "" ""
       (mkWorld c sent)).2.
Proof.
  unfold call, JoinBoard, DoAPIPost, mbind, M_bind, receiver, lift, mret, M_ret. cbn [this].
  destruct (DoAPIRequest _ _ _ _ _) as [[[r [e|]]|] w']; simpl; [done| |done].
  destruct r as [rp|]; simpl; [|done].
  destruct (BoardMemberFromJSON _); simpl; [|done].
  by destruct (http_Response.Body rp).
Qed.

(** X11. [LeaveBoard] does what [JoinBoard] does, in every world: its
    route is the join route.  The request it sends, when it sends one, is a
    POST to /boards/ID/join under the API URL of the client; no request
    for a leave route is ever made. *)
Theorem LeaveBoard_posts_to_join c sent (boardID : string) :
  call (LeaveBoard boardID) c sent = call (JoinBoard boardID) c sent
  ∧ ∀ rq, wire (call (LeaveBoard boardID) c sent).2 = sent ++ [rq] →
          http_Request.Method rq = "POST"
          ∧ http_Request.URL rq = Client.APIURL c +:+ "/boards/" +:+ boardID +:+ "/join".
Proof.
  split; [reflexivity|]. intros rq Hwire.
  change (call (LeaveBoard boardID) c sent) with (call (JoinBoard boardID) c sent) in Hwire.
  rewrite JoinBoard_world in Hwire.
  destruct (DoAPIRequest_world c sent "POST"
              (Client.APIURL c +:+ GetJoinBoardRoute boardID) "" "") as [_ [Hw|Hw]];
    rewrite Hw in Hwire.
  - exfalso. apply (f_equal length) in Hwire. rewrite length_app in Hwire. simpl in Hwire. lia.
  - apply app_inv_head in Hwire. injection Hwire as <-. split; [done|]. simpl.
    unfold GetJoinBoardRoute, GetBoardsRoute. reflexivity.
Qed.

(** X12. [Login] replaces the token of the client only when it succeeds
    with a token that is not empty: after any call, either the client is
    as it was, or the call returned a login response with a non-empty
    token and a [Response] without error, and the client differs from
    before in its [Token] alone, which is that token. *)
Theorem Login_sets_token_only_on_success c sent (request : option LoginRequest) :
  let run := call (Login request) c sent in
  this run.2 = c
  ∨ ∃ login resp,
      run.1 = Returns (Some login, resp)
      ∧ Response.Error resp = None
      ∧ LoginResponse_Token login ≠ ""
      ∧ this run.2 = with_Token c (LoginResponse_Token login).
Proof.
  unfold call, Login, DoAPIPost, mbind, M_bind, receiver, lift, mret, M_ret. cbn [this].
  destruct (DoAPIRequest_world c sent "POST" (Client.APIURL c +:+ GetLoginRoute)
              (toJSON json_Marshal_LoginRequest request) "") as [Hthis _].
  destruct (DoAPIRequest _ _ _ _ _) as [[[r [e|]]|] [c1 sent1]];
    simpl in Hthis; subst c1; simpl; [by left| |by left].
  destruct r as [rp|]; simpl; [|by left].
  destruct (LoginResponseFromJSON (http_Response.Body rp)) as [[data [e|]]|];
    simpl; [by destruct (http_Response.Body rp); left| |by left].
  destruct data as [login|]; simpl; [|by left].
  case_bool_decide as Htoken; simpl.
  - right. destruct (http_Response.Body rp); simpl; by eexists _, _.
  - left. by destruct (http_Response.Body rp).
Qed.

(** X13. A successful [Login]: when the server answers the POST of /login
    with a status below 300 (or 304) and the body decodes to a login
    response with a non-empty token, the call returns that login response
    and a [Response] without error, and the client now holds the token;
    every request the client builds from then on carries Authorization set
    to Bearer and the new token, whatever the options do. *)
Theorem Login_success_installs_bearer c sent (request : option LoginRequest)
    rq rp (login : LoginResponse) :
  answers c "POST" (Client.APIURL c +:+ GetLoginRoute)
          (toJSON json_Marshal_LoginRequest request) rq (Some rp) None →
  http_Response.StatusCode rp < StatusMultipleChoices
  ∨ http_Response.StatusCode rp = StatusNotModified →
  LoginResponseFromJSON (http_Response.Body rp) = Returns (Some login, None) →
  LoginResponse_Token login ≠ "" →
  call (Login request) c sent
  = (Returns (Some login,
              Response.mk (http_Response.StatusCode rp) None (http_Response.Header rp)),
     mkWorld (with_Token c (LoginResponse_Token login)) (sent ++ [rq]))
  ∧ ∀ (method url : string) (data : Stream.t) (opts : list requestOption) rq',
      doAPIRequestReader_request (with_Token c (LoginResponse_Token login))
        method url data opts = Returns (inl rq') →
      Header_values (CanonicalMIMEHeaderKey "Authorization") (http_Request.Header rq')
      = Some ["Bearer " +:+ LoginResponse_Token login].
Proof.
  intros Hanswers Hcode Hdecode Htoken. split.
  - unfold call, Login, DoAPIPost, mbind, M_bind, receiver. cbn [this].
    rewrite (DoAPIRequest_answers _ _ _ _ _ _ _ _ _ Hanswers).
    rewrite (doAPIRequestReader_result_ok rp) by done.
    unfold lift, mret, M_ret. simpl. rewrite Hdecode. simpl.
    rewrite bool_decide_eq_true_2 by done. simpl.
    by destruct (http_Response.Body rp).
  - intros method url data opts rq' Hrq'.
    apply doAPIRequestReader_request_inv in Hrq'
      as (rq0 & rq1 & h1 & h2 & _ & _ & _ & E2 & ->).
    simpl in E2. rewrite bool_decide_eq_true_2 in E2 by done.
    destruct h1 as [m1|]; [|done]. injection E2 as <-. simpl. apply lookup_insert_eq.
Qed.

End api_calls.

(* ================================================================== *)
(** ** The transport and the API calls on concrete servers *)
(* ================================================================== *)

Lemma request_without_options_witness :
  NewRequest_check (GoLib := example_lib) "GET" boards_url = None
  ∧ doAPIRequestReader_request (H := example_lib) local_client "" boards_url
      (strings_NewReader "") []
    = Returns (inl (http_Request.mk "GET" boards_url
                      (Some (client_headers (H := example_lib) local_client))
                      (strings_NewReader ""))).
Proof.
  split; [reflexivity|].
  exact (proj1 (request_without_options (H := example_lib) local_client "" boards_url
                  (strings_NewReader "") eq_refl)).
Defined.

Lemma refused_request_is_not_sent_witness :
  http_NewRequest (H := strict_lib) "GE T" boards_url (strings_NewReader "")
  = inr (foreignError ("net/http: invalid method " +:+ quote +:+ "GE T" +:+ quote))
  ∧ call (doAPIRequestReader (H := strict_lib) "GE T" boards_url (strings_NewReader "") "" [])
         local_client []
    = (Returns (None, Some (foreignError
                              ("net/http: invalid method " +:+ quote +:+ "GE T" +:+ quote))),
       mkWorld local_client []).
Proof.
  assert (http_NewRequest (H := strict_lib) "GE T" boards_url (strings_NewReader "")
          = inr (foreignError ("net/http: invalid method " +:+ quote +:+ "GE T" +:+ quote)))
    as Hnew by (vm_compute; reflexivity).
  split; [exact Hnew|].
  exact (refused_request_is_not_sent (H := strict_lib) local_client [] "GE T" boards_url
           (strings_NewReader "") "" [] _ Hnew).
Defined.

Lemma status_below_300_returned_untouched_witness :
  (doAPIRequestReader_request (H := example_lib)
     (with_HTTPClient local_client (simulated_backend 200 (strings_NewReader "[]")))
     "GET" boards_url (strings_NewReader "") []
   = Returns (inl boards_request)
   ∧ simulated_backend 200 (strings_NewReader "[]") boards_request
     = (Some (ok_response "[]"), None)
   ∧ http_Response.StatusCode (ok_response "[]") < StatusMultipleChoices)
  ∧ call (doAPIRequestReader (H := example_lib) "GET" boards_url (strings_NewReader "") "" [])
         (with_HTTPClient local_client (simulated_backend 200 (strings_NewReader "[]"))) []
    = (Returns (Some (ok_response "[]"), None),
       mkWorld (with_HTTPClient local_client (simulated_backend 200 (strings_NewReader "[]")))
               [boards_request]).
Proof.
  assert (doAPIRequestReader_request (H := example_lib)
            (with_HTTPClient local_client (simulated_backend 200 (strings_NewReader "[]")))
            "GET" boards_url (strings_NewReader "") []
          = Returns (inl boards_request)) as Hrq
    by (vm_compute; reflexivity).
  assert (http_Response.StatusCode (ok_response "[]") < StatusMultipleChoices) as Hcode
    by (vm_compute; reflexivity).
  split; [split; [exact Hrq | split; [reflexivity | exact Hcode]]|].
  exact (status_below_300_returned_untouched (H := example_lib) _ [] _ _ _ "" _
           boards_request (simulated_backend 200 (strings_NewReader "[]"))
           (ok_response "[]") Hrq eq_refl eq_refl Hcode).
Defined.

Lemma error_status_read_failure_wrapped_witness :
  (doAPIRequestReader_request (H := example_lib)
     (with_HTTPClient local_client (simulated_backend 500 broken_body))
     "GET" boards_url (strings_NewReader "") []
   = Returns (inl boards_request)
   ∧ simulated_backend 500 broken_body boards_request
     = (Some (http_Response.mk 500 (Some ∅) (Some broken_body)), None)
   ∧ Stream.fault broken_body = Some (foreignError "unexpected EOF"))
  ∧ ∃ err,
      (call (doAPIRequestReader (H := example_lib) "GET" boards_url
               (strings_NewReader "") "" [])
            (with_HTTPClient local_client (simulated_backend 500 broken_body)) []).1
      = Returns (Some (http_Response.mk 500 (Some ∅)
                         (Some (Stream.mk [] (Some (foreignError "unexpected EOF")) true))),
                 Some err)
      ∧ errors_Unwrap err = Some (foreignError "unexpected EOF").
Proof.
  assert (doAPIRequestReader_request (H := example_lib)
            (with_HTTPClient local_client (simulated_backend 500 broken_body))
            "GET" boards_url (strings_NewReader "") []
          = Returns (inl boards_request)) as Hrq
    by (vm_compute; reflexivity).
  split; [split; [exact Hrq | split; reflexivity]|].
  destruct (error_status_read_failure_wrapped (H := example_lib)
              (with_HTTPClient local_client (simulated_backend 500 broken_body)) []
              "GET" boards_url (strings_NewReader "") "" [] boards_request
              (simulated_backend 500 broken_body)
              (http_Response.mk 500 (Some ∅) (Some broken_body)) broken_body
              (foreignError "unexpected EOF") Hrq)
    as (err & Hrun & Hunwrap & _); [reflexivity | reflexivity | vm_compute; discriminate
                                    | vm_compute; discriminate | reflexivity | reflexivity |].
  exists err. split; [exact Hrun | exact Hunwrap].
Defined.

Lemma DeleteBoard_error_status_witness :
  (answers (H := example_lib)
     (with_HTTPClient local_client
        (simulated_backend 404 (strings_NewReader "board not found")))
     "DELETE" "http://localhost:8065/api/v2/boards/b1" ""
     delete_b1_request (Some not_found_response) None
   ∧ StatusMultipleChoices ≤ http_Response.StatusCode not_found_response
   ∧ http_Response.StatusCode not_found_response ≠ StatusNotModified
   ∧ Stream.fault (strings_NewReader "board not found") = None)
  ∧ call (DeleteBoard (H := example_lib) "b1")
         (with_HTTPClient local_client
            (simulated_backend 404 (strings_NewReader "board not found"))) []
    = (Returns (false,
                Response.mk 404
                  (Some (RequestReaderError (String.list_byte_of_string "board not found")))
                  (Some ∅)),
       mkWorld (with_HTTPClient local_client
                  (simulated_backend 404 (strings_NewReader "board not found")))
               [delete_b1_request]).
Proof.
  assert (answers (H := example_lib)
            (with_HTTPClient local_client
               (simulated_backend 404 (strings_NewReader "board not found")))
            "DELETE" "http://localhost:8065/api/v2/boards/b1" ""
            delete_b1_request (Some not_found_response) None) as Hanswers.
  { split; [vm_compute; reflexivity|]. eexists. split; reflexivity. }
  assert (StatusMultipleChoices ≤ http_Response.StatusCode not_found_response) as Hge
    by (vm_compute; discriminate).
  assert (http_Response.StatusCode not_found_response ≠ StatusNotModified) as Hne
    by (vm_compute; discriminate).
  split; [split; [exact Hanswers | split; [exact Hge | split; [exact Hne | reflexivity]]]|].
  exact (DeleteBoard_error_status (H := example_lib) _ [] "b1" delete_b1_request
           not_found_response (strings_NewReader "board not found") Hanswers Hge Hne
           eq_refl eq_refl).
Defined.

Lemma DeleteBoard_success_witness :
  (answers (H := example_lib)
     (with_HTTPClient local_client (simulated_backend 304 (strings_NewReader "")))
     "DELETE" "http://localhost:8065/api/v2/boards/b1" ""
     delete_b1_request (Some not_modified_response) None
   ∧ (http_Response.StatusCode not_modified_response < StatusMultipleChoices
      ∨ http_Response.StatusCode not_modified_response = StatusNotModified))
  ∧ call (DeleteBoard (H := example_lib) "b1")
         (with_HTTPClient local_client (simulated_backend 304 (strings_NewReader ""))) []
    = (Returns (true, Response.mk 304 None (Some ∅)),
       mkWorld (with_HTTPClient local_client (simulated_backend 304 (strings_NewReader "")))
               [delete_b1_request]).
Proof.
  assert (answers (H := example_lib)
            (with_HTTPClient local_client (simulated_backend 304 (strings_NewReader "")))
            "DELETE" "http://localhost:8065/api/v2/boards/b1" ""
            delete_b1_request (Some not_modified_response) None) as Hanswers.
  { split; [vm_compute; reflexivity|]. eexists. split; reflexivity. }
  split; [split; [exact Hanswers | right; reflexivity]|].
  exact (DeleteBoard_success (H := example_lib) _ [] "b1" delete_b1_request
           not_modified_response Hanswers (or_intror eq_refl)).
Defined.

Lemma DeleteBoard_transport_failure_witness :
  answers (H := example_lib) local_client
    "DELETE" "http://localhost:8065/api/v2/boards/b1" ""
    delete_b1_request None (Some connection_refused)
  ∧ call (DeleteBoard (H := example_lib) "b1") local_client []
    = (Returns (false, Response.mk 0 (Some connection_refused) (Some ∅)),
       mkWorld local_client [delete_b1_request]).
Proof.
  assert (answers (H := example_lib) local_client
            "DELETE" "http://localhost:8065/api/v2/boards/b1" ""
            delete_b1_request None (Some connection_refused)) as Hanswers.
  { split; [vm_compute; reflexivity|]. eexists. split; reflexivity. }
  split; [exact Hanswers|].
  exact (DeleteBoard_transport_failure (H := example_lib) local_client [] "b1"
           delete_b1_request None connection_refused Hanswers).
Defined.

Lemma ExportBoardArchive_body_witness :
  (answers (H := example_lib)
     (with_HTTPClient local_client (simulated_backend 200 (strings_NewReader "PK34")))
     "GET" "http://localhost:8065/api/v2/boards/b1/archive/export" ""
     export_b1_request (Some (ok_response "PK34")) None
   ∧ (http_Response.StatusCode (ok_response "PK34") < StatusMultipleChoices
      ∨ http_Response.StatusCode (ok_response "PK34") = StatusNotModified))
  ∧ call (ExportBoardArchive (H := example_lib) "b1")
         (with_HTTPClient local_client (simulated_backend 200 (strings_NewReader "PK34"))) []
    = (Returns (Some (String.list_byte_of_string "PK34"), Response.mk 200 None (Some ∅)),
       mkWorld (with_HTTPClient local_client
                  (simulated_backend 200 (strings_NewReader "PK34")))
               [export_b1_request]).
Proof.
  assert (answers (H := example_lib)
            (with_HTTPClient local_client (simulated_backend 200 (strings_NewReader "PK34")))
            "GET" "http://localhost:8065/api/v2/boards/b1/archive/export" ""
            export_b1_request (Some (ok_response "PK34")) None) as Hanswers.
  { split; [vm_compute; reflexivity|]. eexists. split; reflexivity. }
  assert (http_Response.StatusCode (ok_response "PK34") < StatusMultipleChoices) as Hcode
    by (vm_compute; reflexivity).
  split; [split; [exact Hanswers | left; exact Hcode]|].
  exact (ExportBoardArchive_body (H := example_lib) _ [] "b1" export_b1_request
           (ok_response "PK34") (strings_NewReader "PK34") Hanswers (or_introl Hcode)
           eq_refl).
Defined.

Lemma Login_success_installs_bearer_witness :
  (answers (H := example_lib)
     (with_HTTPClient local_client (simulated_backend 200 (strings_NewReader "t0ken")))
     "POST" "http://localhost:8065/api/v2/login" "alice"
     login_alice_request (Some (ok_response "t0ken")) None
   ∧ LoginResponseFromJSON (Codec := example_codec)
       (http_Response.Body (ok_response "t0ken"))
     = Returns (Some "t0ken", None)
   ∧ "t0ken" ≠ "")
  ∧ call (Login (H := example_lib) (H0 := example_codec) (Some ("alice", "pw")))
         (with_HTTPClient local_client (simulated_backend 200 (strings_NewReader "t0ken"))) []
    = (Returns (Some "t0ken", Response.mk 200 None (Some ∅)),
       mkWorld (with_Token
                  (with_HTTPClient local_client
                     (simulated_backend 200 (strings_NewReader "t0ken")))
                  "t0ken")
               [login_alice_request]).
Proof.
  assert (answers (H := example_lib)
            (with_HTTPClient local_client (simulated_backend 200 (strings_NewReader "t0ken")))
            "POST" "http://localhost:8065/api/v2/login" "alice"
            login_alice_request (Some (ok_response "t0ken")) None) as Hanswers.
  { split; [vm_compute; reflexivity|]. eexists. split; reflexivity. }
  assert (http_Response.StatusCode (ok_response "t0ken") < StatusMultipleChoices) as Hcode
    by (vm_compute; reflexivity).
  assert (("t0ken" : string) ≠ "") as Htoken by discriminate.
  split; [split; [exact Hanswers | split; [reflexivity | exact Htoken]]|].
  exact (proj1 (Login_success_installs_bearer (H := example_lib) (H0 := example_codec) _ []
                  (Some ("alice", "pw")) login_alice_request (ok_response "t0ken") "t0ken"
                  Hanswers (or_introl Hcode) eq_refl Htoken)).
Defined.
